(** * controle-compras: the purchase-request model and its request handlers

    A shallow embedding of [src/utils/helpers.js], of the model
    [SolicitacaoModel] and of the controller [SolicitacaoController],
    with the statements the model sends to PostgreSQL interpreted over
    a table of rows.

    Conventions of the embedding.
    - A JavaScript string is a list of characters ([str]); the case
      mapping and the white space of [trim] are those of ASCII.
    - A JavaScript number holding an integer is a [Z], and so is a
      number of the store: the development is about numbers below 2^53,
      where doubles are exact and a [bigint] has room.  [NaN] is [None];
      a timestamp is the instant it denotes.
    - [undefined] is [None]; the fields of a request body and of a query
      string are optional strings.
    - A thrown exception is the [Throw] branch of [result]; a handler is
      a function from the table before to the response and the table
      after.
    - The store is reachable: a query fails only for what the statement
      and its parameters are.
    - The validator chains and the rate limiters the routes put in front
      of the handlers belong to libraries and are left out. *)

From Stdlib Require Import ZArith List Ascii String Bool Lia Permutation Sorted.
From Stdlib Require Import DecimalString.
From Stdlib Require DecimalPos.
Import ListNotations.

Open Scope string_scope.
Open Scope list_scope.
Open Scope Z_scope.

(** ** Strings *)

Definition str := list ascii.

Definition lit (s : string) : str := list_ascii_of_string s.

Arguments lit : simpl never.

Definition chr (c : ascii) : Z := Z.of_N (N_of_ascii c).

Fixpoint str_eqb (a b : str) : bool :=
  match a, b with
  | [], [] => true
  | x :: a', y :: b' => Ascii.eqb x y && str_eqb a' b'
  | _, _ => false
  end.

(** [ToString] of an integer-valued number. *)
Definition dec (n : Z) : str := lit (NilZero.string_of_int (Z.to_int n)).

(** [arr.join(sep)] *)
Fixpoint join (sep : str) (l : list str) : str :=
  match l with
  | [] => []
  | [x] => x
  | x :: rest => x ++ sep ++ join sep rest
  end.

(** White space removed by [String.prototype.trim] and skipped by
    [parseInt]: TAB, LF, VT, FF, CR and SPACE. *)
Definition isWhiteSpace (c : ascii) : bool :=
  ((9 <=? chr c) && (chr c <=? 13)) || (chr c =? 32).

Fixpoint trimStart (s : str) : str :=
  match s with
  | [] => []
  | c :: t => if isWhiteSpace c then trimStart t else s
  end.

Definition trimEnd (s : str) : str := rev (trimStart (rev s)).

Definition trim (s : str) : str := trimEnd (trimStart s).

Definition isAngle (c : ascii) : bool := (chr c =? 60) || (chr c =? 62).

(** [s.replace(/[<>]/g, '')] *)
Definition stripAngle (s : str) : str := filter (fun c => negb (isAngle c)) s.

Definition upperChar (c : ascii) : ascii :=
  if (97 <=? chr c) && (chr c <=? 122)
  then ascii_of_N (N_of_ascii c - 32) else c.

Definition toUpperCase (s : str) : str := map upperChar s.

Definition lowerChar (c : ascii) : ascii :=
  if (65 <=? chr c) && (chr c <=? 90)
  then ascii_of_N (N_of_ascii c + 32) else c.

Definition toLowerCase (s : str) : str := map lowerChar s.

(** helpers.js, [sanitizeInput] on a string. *)
Definition sanitizeInput (data : str) : str := stripAngle (trim data).

(** helpers.js, [normalizeString] on a string. *)
Definition normalizeString (s : str) : str := toUpperCase (trim s).

(** ** [parseInt] without a radix argument *)

Definition digitValue (c : ascii) : option Z :=
  let n := chr c in
  if (48 <=? n) && (n <=? 57) then Some (n - 48)
  else if (97 <=? n) && (n <=? 102) then Some (n - 87)
  else if (65 <=? n) && (n <=? 70) then Some (n - 55)
  else None.

Definition digitIn (radix : Z) (c : ascii) : option Z :=
  match digitValue c with
  | Some d => if d <? radix then Some d else None
  | None => None
  end.

(** The longest prefix of digits, read in [radix]; [None] when it is empty. *)
Fixpoint parseDigits (radix : Z) (acc : option Z) (s : str) : option Z :=
  match s with
  | [] => acc
  | c :: t =>
      match digitIn radix c with
      | Some d =>
          parseDigits radix
            (Some (match acc with Some a => a * radix + d | None => d end)) t
      | None => acc
      end
  end.

Definition parseInt (input : str) : option Z :=
  let s1 := trimStart input in
  let '(sign, s2) :=
    match s1 with
    | "-"%char :: t => (-1, t)
    | "+"%char :: t => (1, t)
    | _ => (1, s1)
    end in
  let '(radix, s3) :=
    match s2 with
    | "0"%char :: "x"%char :: t => (16, t)
    | "0"%char :: "X"%char :: t => (16, t)
    | _ => (10, s2)
    end in
  match parseDigits radix None s3 with
  | Some m => Some (sign * m)
  | None => None
  end.

(** A query parameter after the destructuring default: the string of the
    query, or the number written as default in the handler. *)
Inductive qvalue :=
| QNum (n : Z)
| QStr (s : str).

Definition withDefault (q : option str) (d : Z) : qvalue :=
  match q with
  | None => QNum d
  | Some s => QStr s
  end.

Definition parseIntOf (v : qvalue) : option Z :=
  match v with
  | QNum n => parseInt (dec n)
  | QStr s => parseInt s
  end.

(** [x || d] for a number [x]: [NaN] and [0] are falsy. *)
Definition orNumber (x : option Z) (d : Z) : Z :=
  match x with
  | Some n => if n =? 0 then d else n
  | None => d
  end.

(** [Math.ceil(a / b)] for a positive [b]. *)
Definition ceilDiv (a b : Z) : Z := - ((- a) / b).

(** ** The table [solicitacoes] and the statements sent to the store *)

Record Row := mkRow {
  id : Z;
  nome_pessoa : str;
  setor : str;
  centro_custo : str;
  equipamento : str;
  data_solicitacao : Z;
  status : str;
  created_at : Z;
  updated_at : Z
}.

(** The table and the last value of the sequence behind [id SERIAL]. *)
Record DB := mkDB {
  solicitacoes : list Row;
  id_seq : Z
}.

(** A bound parameter: a string, a number or a [Date]. *)
Inductive param :=
| PStr (s : str)
| PNum (n : Z)
| PDate (t : Z).

Inductive column :=
| c_id | c_nome_pessoa | c_setor | c_centro_custo | c_equipamento
| c_data_solicitacao | c_status | c_created_at | c_updated_at.

Definition allColumns : list column :=
  [c_id; c_nome_pessoa; c_setor; c_centro_custo; c_equipamento;
   c_data_solicitacao; c_status; c_created_at; c_updated_at].

Definition columnName (c : column) : str :=
  lit match c with
      | c_id => "id"
      | c_nome_pessoa => "nome_pessoa"
      | c_setor => "setor"
      | c_centro_custo => "centro_custo"
      | c_equipamento => "equipamento"
      | c_data_solicitacao => "data_solicitacao"
      | c_status => "status"
      | c_created_at => "created_at"
      | c_updated_at => "updated_at"
      end.

Inductive value :=
| VInt (n : Z)
| VText (s : str)
| VTime (t : Z).

Definition getCol (c : column) (r : Row) : value :=
  match c with
  | c_id => VInt (id r)
  | c_nome_pessoa => VText (nome_pessoa r)
  | c_setor => VText (setor r)
  | c_centro_custo => VText (centro_custo r)
  | c_equipamento => VText (equipamento r)
  | c_data_solicitacao => VTime (data_solicitacao r)
  | c_status => VText (status r)
  | c_created_at => VTime (created_at r)
  | c_updated_at => VTime (updated_at r)
  end.

(** [VARCHAR(n)] bounds of the table; [None] for [TEXT] and the others. *)
Definition maxLength (c : column) : option Z :=
  match c with
  | c_nome_pessoa => Some 255
  | c_setor => Some 100
  | c_centro_custo => Some 50
  | c_status => Some 50
  | _ => None
  end.

Definition len {A : Type} (l : list A) : Z := Z.of_nat (List.length l).

Definition fits (c : column) (s : str) : bool :=
  match maxLength c with
  | Some n => len s <=? n
  | None => true
  end.

(** A condition of the [WHERE] clause, with the index of its placeholder. *)
Inductive cond :=
| Equals (c : column) (paramIndex : nat)
| ILikeEither (c1 c2 : column) (paramIndex : nat).

Definition placeholder (paramIndex : nat) : str :=
  lit "$" ++ dec (Z.of_nat paramIndex).

Definition condSql (c : cond) : str :=
  match c with
  | Equals col i => columnName col ++ lit " = " ++ placeholder i
  | ILikeEither c1 c2 i =>
      lit "(" ++ columnName c1 ++ lit " ILIKE " ++ placeholder i ++
      lit " OR " ++ columnName c2 ++ lit " ILIKE " ++ placeholder i ++ lit ")"
  end.

Inductive statement :=
| InsertReturningId
| SelectAll (conditions : list cond) (orderBy : str) (limitIndex : option nat)
| SelectById
| UpdateSet (updateFields : list (column * nat)) (idIndex : nat)
| DeleteById
| CountAll (conditions : list cond)
| StatsByStatus.

Definition nl : str := [ascii_of_nat 10].
Definition indent (n : nat) : str := repeat " "%char n.

Definition whereSql (conditions : list cond) : str :=
  match conditions with
  | [] => []
  | _ => lit " WHERE " ++ join (lit " AND ") (map condSql conditions)
  end.

Definition assignSql (a : column * nat) : str :=
  columnName (fst a) ++ lit " = " ++ placeholder (snd a).

(** The text handed to [query] for each statement. *)
Definition sqlText (st : statement) : str :=
  match st with
  | InsertReturningId =>
      nl ++ indent 16 ++
      lit "INSERT INTO solicitacoes (nome_pessoa, setor, centro_custo, equipamento, data_solicitacao, status) " ++
      nl ++ indent 16 ++ lit "VALUES ($1, $2, $3, $4, $5, $6)" ++
      nl ++ indent 16 ++ lit "RETURNING id" ++ nl ++ indent 12
  | SelectAll conditions orderBy limitIndex =>
      lit "SELECT * FROM solicitacoes" ++ whereSql conditions ++
      lit " ORDER BY " ++ orderBy ++
      match limitIndex with
      | Some i => lit " LIMIT " ++ placeholder i ++ lit " OFFSET " ++ placeholder (i + 1)
      | None => []
      end
  | SelectById => lit "SELECT * FROM solicitacoes WHERE id = $1"
  | UpdateSet updateFields idIndex =>
      nl ++ indent 16 ++ lit "UPDATE solicitacoes " ++
      nl ++ indent 16 ++ lit "SET " ++ join (lit ", ") (map assignSql updateFields) ++ lit " " ++
      nl ++ indent 16 ++ lit "WHERE id = " ++ placeholder idIndex ++ nl ++ indent 12
  | DeleteById => lit "DELETE FROM solicitacoes WHERE id = $1"
  | CountAll conditions =>
      lit "SELECT COUNT(*) as total FROM solicitacoes" ++ whereSql conditions
  | StatsByStatus =>
      nl ++ indent 16 ++ lit "SELECT " ++
      nl ++ indent 20 ++ lit "status," ++
      nl ++ indent 20 ++ lit "COUNT(*) as quantidade" ++
      nl ++ indent 16 ++ lit "FROM solicitacoes" ++ nl ++ indent 12 ++
      lit " GROUP BY status ORDER BY quantidade DESC"
  end.

(** *** What the store computes *)

Record PgError := mkPgError {
  pg_message : str;
  pg_code : str
}.

Inductive rowset :=
| Rows (l : list Row)
| Ids (l : list Z)
| Totals (l : list Z)
| Groups (l : list (str * Z))
| NoRows.

Record QueryResult := mkResult {
  rows : rowset;
  rowCount : Z
}.

Definition getParam (params : list param) (paramIndex : nat) : option param :=
  match paramIndex with
  | O => None
  | S k => nth_error params k
  end.

(** [LIKE]: [%] any sequence, [_] any character, backslash escapes. *)
Fixpoint like (p : str) : str -> bool :=
  match p with
  | [] => fun s => match s with [] => true | _ => false end
  | c :: p' =>
      if Ascii.eqb c "%" then
        fix star (s : str) : bool :=
          like p' s || match s with [] => false | _ :: s' => star s' end
      else if Ascii.eqb c "_" then
        fun s => match s with [] => false | _ :: s' => like p' s' end
      else if Ascii.eqb c "\" then
        match p' with
        | [] => fun _ => false
        | e :: p'' =>
            fun s => match s with
                     | [] => false
                     | d :: s' => Ascii.eqb e d && like p'' s'
                     end
        end
      else
        fun s => match s with
                 | [] => false
                 | d :: s' => Ascii.eqb c d && like p' s'
                 end
  end.

Definition ilike (pattern s : str) : bool :=
  like (toLowerCase pattern) (toLowerCase s).

Definition evalCond (params : list param) (c : cond) (r : Row) : option bool :=
  match c with
  | Equals col i =>
      match getCol col r, getParam params i with
      | VText s, Some (PStr p) => Some (str_eqb s p)
      | VInt n, Some (PNum m) => Some (n =? m)
      | VTime t, Some (PDate u) => Some (t =? u)
      | _, _ => None
      end
  | ILikeEither c1 c2 i =>
      match getCol c1 r, getCol c2 r, getParam params i with
      | VText s1, VText s2, Some (PStr p) => Some (ilike p s1 || ilike p s2)
      | _, _, _ => None
      end
  end.

(** All the conditions, joined by [AND]. *)
Fixpoint evalWhere (params : list param) (conditions : list cond) (r : Row)
  : option bool :=
  match conditions with
  | [] => Some true
  | c :: rest =>
      match evalCond params c r, evalWhere params rest r with
      | Some b, Some b' => Some (b && b')
      | _, _ => None
      end
  end.

Fixpoint selectWhere (p : Row -> option bool) (l : list Row) : option (list Row) :=
  match l with
  | [] => Some []
  | r :: t =>
      match p r, selectWhere p t with
      | Some b, Some t' => Some (if b then r :: t' else t')
      | _, _ => None
      end
  end.

Fixpoint str_leb (a b : str) : bool :=
  match a, b with
  | [], _ => true
  | _ :: _, [] => false
  | x :: a', y :: b' =>
      if chr x <? chr y then true
      else if chr y <? chr x then false
      else str_leb a' b'
  end.

Definition valueLeb (a b : value) : bool :=
  match a, b with
  | VInt x, VInt y => x <=? y
  | VTime x, VTime y => x <=? y
  | VText x, VText y => str_leb x y
  | _, _ => true
  end.

Section Sorting.
Context {A : Type} (le : A -> A -> bool).

Fixpoint insertBy (x : A) (l : list A) : list A :=
  match l with
  | [] => [x]
  | y :: t => if le x y then x :: l else y :: insertBy x t
  end.

Definition sortBy (l : list A) : list A := fold_right insertBy [] l.
End Sorting.

(** The [ORDER BY] clauses the model interprets: one column of the
    table, with an optional direction; rows with equal keys keep their
    order.  Any other text counts as a statement the store rejects, which
    it is for an unknown column or an empty clause; PostgreSQL reads more
    clauses than these (lists of keys, expressions), and the theorems
    below that assume an interpreted clause say nothing about them. *)
Definition orderings : list (str * (Row -> Row -> bool)) :=
  flat_map (fun c =>
    [ (columnName c, fun a b => valueLeb (getCol c a) (getCol c b));
      (columnName c ++ lit " ASC", fun a b => valueLeb (getCol c a) (getCol c b));
      (columnName c ++ lit " DESC", fun a b => valueLeb (getCol c b) (getCol c a)) ])
    allColumns.

Definition orderClause (orderBy : str) : option (Row -> Row -> bool) :=
  match find (fun e => str_eqb (fst e) orderBy) orderings with
  | Some e => Some (snd e)
  | None => None
  end.

Definition syntaxError : PgError := mkPgError (lit "syntax error") (lit "42601").
Definition bindError : PgError :=
  mkPgError (lit "bind message supplies the wrong parameters") (lit "08P01").
Definition tooLong : PgError :=
  mkPgError (lit "value too long for type character varying") (lit "22001").
Definition duplicateKey : PgError :=
  mkPgError (lit "duplicate key value violates unique constraint") (lit "23505").
Definition badLimit : PgError :=
  mkPgError (lit "LIMIT and OFFSET must not be negative") (lit "2201W").

Definition matching (params : list param) (conditions : list cond) (l : list Row)
  : option (list Row) :=
  selectWhere (evalWhere params conditions) l.

(** [GROUP BY status] with [COUNT( * )]. *)
Fixpoint bump (s : str) (g : list (str * Z)) : list (str * Z) :=
  match g with
  | [] => [(s, 1)]
  | (k, n) :: t => if str_eqb k s then (k, n + 1) :: t else (k, n) :: bump s t
  end.

Definition groupByStatus (l : list Row) : list (str * Z) :=
  fold_left (fun g r => bump (status r) g) l [].

Definition byCountDesc (a b : str * Z) : bool := snd b <=? snd a.

(** [SET col = $i] on one row. *)
Definition setCol (c : column) (p : param) (r : Row) : option Row :=
  match c, p with
  | c_nome_pessoa, PStr s =>
      Some (mkRow (id r) s (setor r) (centro_custo r) (equipamento r)
              (data_solicitacao r) (status r) (created_at r) (updated_at r))
  | c_setor, PStr s =>
      Some (mkRow (id r) (nome_pessoa r) s (centro_custo r) (equipamento r)
              (data_solicitacao r) (status r) (created_at r) (updated_at r))
  | c_centro_custo, PStr s =>
      Some (mkRow (id r) (nome_pessoa r) (setor r) s (equipamento r)
              (data_solicitacao r) (status r) (created_at r) (updated_at r))
  | c_equipamento, PStr s =>
      Some (mkRow (id r) (nome_pessoa r) (setor r) (centro_custo r) s
              (data_solicitacao r) (status r) (created_at r) (updated_at r))
  | c_status, PStr s =>
      Some (mkRow (id r) (nome_pessoa r) (setor r) (centro_custo r) (equipamento r)
              (data_solicitacao r) s (created_at r) (updated_at r))
  | c_data_solicitacao, PDate t =>
      Some (mkRow (id r) (nome_pessoa r) (setor r) (centro_custo r) (equipamento r)
              t (status r) (created_at r) (updated_at r))
  | c_created_at, PDate t =>
      Some (mkRow (id r) (nome_pessoa r) (setor r) (centro_custo r) (equipamento r)
              (data_solicitacao r) (status r) t (updated_at r))
  | c_updated_at, PDate t =>
      Some (mkRow (id r) (nome_pessoa r) (setor r) (centro_custo r) (equipamento r)
              (data_solicitacao r) (status r) (created_at r) t)
  | c_id, PNum n =>
      Some (mkRow n (nome_pessoa r) (setor r) (centro_custo r) (equipamento r)
              (data_solicitacao r) (status r) (created_at r) (updated_at r))
  | _, _ => None
  end.

Definition fitsParam (c : column) (p : param) : bool :=
  match p with
  | PStr s => fits c s
  | _ => true
  end.

(** All the assignments of a [SET] list on one row: [inl] is the error. *)
Fixpoint applySets (params : list param) (updateFields : list (column * nat))
  (r : Row) : PgError + Row :=
  match updateFields with
  | [] => inr r
  | (c, i) :: rest =>
      match getParam params i with
      | None => inl bindError
      | Some p =>
          match setCol c p r with
          | None => inl bindError
          | Some r' =>
              if fitsParam c p then applySets params rest r' else inl tooLong
          end
      end
  end.

Fixpoint updateRows (params : list param) (updateFields : list (column * nat))
  (target : Z) (l : list Row) : PgError + (list Row * Z) :=
  match l with
  | [] => inr ([], 0)
  | r :: t =>
      match updateRows params updateFields target t with
      | inl e => inl e
      | inr (t', n) =>
          if id r =? target then
            match applySets params updateFields r with
            | inl e => inl e
            | inr r' => inr (r' :: t', n + 1)
            end
          else inr (r :: t', n)
      end
  end.

(** [query(text, params)] of database.js over the table: the result or
    the error of the store, and the table afterwards.  [now] is the clock
    behind [CURRENT_TIMESTAMP]. *)
Definition query (st : statement) (params : list param) (now : Z) (db : DB)
  : (PgError + QueryResult) * DB :=
  match st with
  | InsertReturningId =>
      match params with
      | [PStr n; PStr s; PStr c; PStr e; PDate d; PStr stt] =>
          if fits c_nome_pessoa n && fits c_setor s && fits c_centro_custo c
             && fits c_status stt
          then
            let newId := id_seq db + 1 in
            if existsb (fun r => id r =? newId) (solicitacoes db)
            then (inl duplicateKey, mkDB (solicitacoes db) newId)
            else
              (inr (mkResult (Ids [newId]) 1),
               mkDB (solicitacoes db ++ [mkRow newId n s c e d stt now now]) newId)
          else (inl tooLong, db)
      | _ => (inl bindError, db)
      end
  | SelectAll conditions orderBy limitIndex =>
      match matching params conditions (solicitacoes db), orderClause orderBy with
      | None, _ => (inl bindError, db)
      | _, None => (inl syntaxError, db)
      | Some found, Some le =>
          let sorted := sortBy le found in
          match limitIndex with
          | None => (inr (mkResult (Rows sorted) (len sorted)), db)
          | Some i =>
              match getParam params i, getParam params (i + 1) with
              | Some (PNum limit), Some (PNum offset) =>
                  if (0 <=? limit) && (0 <=? offset) then
                    let page := firstn (Z.to_nat limit) (skipn (Z.to_nat offset) sorted) in
                    (inr (mkResult (Rows page) (len page)), db)
                  else (inl badLimit, db)
              | _, _ => (inl bindError, db)
              end
          end
      end
  | SelectById =>
      match params with
      | [PNum i] =>
          let found := filter (fun r => id r =? i) (solicitacoes db) in
          (inr (mkResult (Rows found) (len found)), db)
      | _ => (inl bindError, db)
      end
  | UpdateSet updateFields idIndex =>
      match getParam params idIndex with
      | Some (PNum i) =>
          match updateRows params updateFields i (solicitacoes db) with
          | inl e => (inl e, db)
          | inr (l, n) => (inr (mkResult NoRows n), mkDB l (id_seq db))
          end
      | _ => (inl bindError, db)
      end
  | DeleteById =>
      match params with
      | [PNum i] =>
          let kept := filter (fun r => negb (id r =? i)) (solicitacoes db) in
          (inr (mkResult NoRows (len (solicitacoes db) - len kept)),
           mkDB kept (id_seq db))
      | _ => (inl bindError, db)
      end
  | CountAll conditions =>
      match matching params conditions (solicitacoes db) with
      | None => (inl bindError, db)
      | Some found => (inr (mkResult (Totals [len found]) 1), db)
      end
  | StatsByStatus =>
      let groups := sortBy byCountDesc (groupByStatus (solicitacoes db)) in
      (inr (mkResult (Groups groups) (len groups)), db)
  end.

(** ** Exceptions *)

Record JsError := mkJsError {
  message : str;
  code : option str;
  statusCode : option Z
}.

(** [new Error(msg)] *)
Definition Error (msg : str) : JsError := mkJsError msg None None.

(** The error object the driver raises for an error of the store. *)
Definition pgError (e : PgError) : JsError :=
  mkJsError (pg_message e) (Some (pg_code e)) None.

Inductive result (A : Type) :=
| Ok (a : A)
| Throw (e : JsError).

Arguments Ok {A} a.
Arguments Throw {A} e.

(** ** SolicitacaoModel *)

Record Data := mkData {
  d_nome_pessoa : option str;
  d_setor : option str;
  d_centro_custo : option str;
  d_equipamento : option str;
  d_status : option str;
  d_data_solicitacao : option Z
}.

Record Filters := mkFilters {
  f_status : option str;
  f_setor : option str;
  f_search : option str
}.

(** [data[field]] for the fields the model reads by name. *)
Definition getField (data : Data) (field : column) : option str :=
  match field with
  | c_nome_pessoa => d_nome_pessoa data
  | c_setor => d_setor data
  | c_centro_custo => d_centro_custo data
  | c_equipamento => d_equipamento data
  | c_status => d_status data
  | _ => None
  end.

(** Truthiness of a string that may be [undefined]. *)
Definition truthy (v : option str) : bool :=
  match v with
  | Some (_ :: _) => true
  | _ => false
  end.

(** [!v || v.trim() === ''] *)
Definition blank (v : option str) : bool :=
  match v with
  | Some s => negb (truthy v) || str_eqb (trim s) []
  | None => true
  end.

Definition required : list column :=
  [c_nome_pessoa; c_setor; c_centro_custo; c_equipamento].

Definition orEmpty (v : option str) : str :=
  match v with Some s => s | None => [] end.

(** A JavaScript number as a bound parameter; [NaN] travels as text. *)
Definition numParam (n : option Z) : param :=
  match n with
  | Some z => PNum z
  | None => PStr (lit "NaN")
  end.

Module SolicitacaoModel.

Definition create (data : Data) (now : Z) (db : DB) : result Z * DB :=
  match find (fun field => blank (getField data field)) required with
  | Some field =>
      (Throw (Error (lit "Erro ao salvar solicitação: " ++
                     lit "Campo obrigatório não informado: " ++ columnName field)), db)
  | None =>
      let values :=
        [ PStr (trim (orEmpty (d_nome_pessoa data)));
          PStr (trim (orEmpty (d_setor data)));
          PStr (trim (orEmpty (d_centro_custo data)));
          PStr (trim (orEmpty (d_equipamento data)));
          PDate (match d_data_solicitacao data with Some t => t | None => now end);
          PStr (if truthy (d_status data) then orEmpty (d_status data)
                else lit "Pendente") ] in
      match query InsertReturningId values now db with
      | (inr r, db') =>
          match rows r with
          | Ids (i :: _) => (Ok i, db')
          | _ =>
              (Throw (Error (lit "Erro ao salvar solicitação: " ++
                             lit "Erro ao inserir solicitação no banco de dados")), db')
          end
      | (inl e, db') =>
          (Throw (Error (lit "Erro ao salvar solicitação: " ++ message (pgError e))), db')
      end
  end.

(** The statement and the parameters [getAll] hands to [query]. *)
Definition getAll_query (filters : Filters) (orderByArg : option str)
  (limit : option Z) (offset : Z) : statement * list param :=
  let orderBy :=
    match orderByArg with Some o => o | None => lit "data_solicitacao DESC" end in
  let params : list param := [] in
  let conditions : list cond := [] in
  let paramIndex := 1%nat in
  let '(conditions, params, paramIndex) :=
    if truthy (f_status filters)
    then (conditions ++ [Equals c_status paramIndex],
          params ++ [PStr (orEmpty (f_status filters))], S paramIndex)
    else (conditions, params, paramIndex) in
  let '(conditions, params, paramIndex) :=
    if truthy (f_setor filters)
    then (conditions ++ [Equals c_setor paramIndex],
          params ++ [PStr (orEmpty (f_setor filters))], S paramIndex)
    else (conditions, params, paramIndex) in
  let '(conditions, params, paramIndex) :=
    if truthy (f_search filters)
    then (conditions ++ [ILikeEither c_nome_pessoa c_equipamento paramIndex],
          params ++ [PStr (lit "%" ++ orEmpty (f_search filters) ++ lit "%")],
          S paramIndex)
    else (conditions, params, paramIndex) in
  let '(limitIndex, params) :=
    match limit with
    | Some l =>
        if l =? 0 then (None, params)
        else (Some paramIndex, params ++ [PNum l; PNum offset])
    | None => (None, params)
    end in
  (SelectAll conditions orderBy limitIndex, params).

Definition getAll (filters : Filters) (orderByArg : option str)
  (limit : option Z) (offset : Z) (now : Z) (db : DB) : result (list Row) * DB :=
  let '(sql, params) := getAll_query filters orderByArg limit offset in
  match query sql params now db with
  | (inr r, db') =>
      (Ok (match rows r with Rows l => l | _ => [] end), db')
  | (inl _, db') =>
      (Throw (Error (lit "Erro ao buscar solicitações no banco de dados")), db')
  end.

Definition getById (id : option Z) (now : Z) (db : DB) : result (option Row) * DB :=
  match query SelectById [numParam id] now db with
  | (inr r, db') =>
      (Ok (match rows r with Rows (x :: _) => Some x | _ => None end), db')
  | (inl _, db') =>
      (Throw (Error (lit "Erro ao buscar solicitação no banco de dados")), db')
  end.

Definition allowedFields : list column :=
  [c_nome_pessoa; c_setor; c_centro_custo; c_equipamento; c_status].

(** One turn of the loop over [allowedFields]. *)
Definition pushField (data : Data)
  (acc : list (column * nat) * list param * nat) (field : column)
  : list (column * nat) * list param * nat :=
  let '(updateFields, params, paramIndex) := acc in
  match getField data field with
  | Some v =>
      (updateFields ++ [(field, paramIndex)], params ++ [PStr v], S paramIndex)
  | None => acc
  end.

(** The statement and the parameters [update] hands to [query];
    [None] when no field was supplied. *)
Definition update_query (id : option Z) (data : Data) (now : Z)
  : option (statement * list param) :=
  let '(updateFields, params, paramIndex) :=
    fold_left (pushField data) allowedFields ([], [], 1%nat) in
  match updateFields with
  | [] => None
  | _ =>
      let updateFields := updateFields ++ [(c_updated_at, paramIndex)] in
      let params := params ++ [PDate now] in
      let paramIndex := S paramIndex in
      let params := params ++ [numParam id] in
      Some (UpdateSet updateFields paramIndex, params)
  end.

Definition update (id : option Z) (data : Data) (now : Z) (db : DB)
  : result bool * DB :=
  match update_query id data now with
  | None =>
      (Throw (Error (lit "Erro ao atualizar solicitação: " ++
                     lit "Nenhum campo para atualizar foi fornecido")), db)
  | Some (sql, params) =>
      match query sql params now db with
      | (inr r, db') =>
          if 0 <? rowCount r then (Ok true, db')
          else
            (Throw (Error (lit "Erro ao atualizar solicitação: " ++
                           lit "Solicitação não encontrada ou nenhuma alteração foi feita")),
             db')
      | (inl e, db') =>
          (Throw (Error (lit "Erro ao atualizar solicitação: " ++ message (pgError e))),
 db')
      end
  end.

Definition updateStatus (id : option Z) (status : option str) (now : Z) (db : DB)
  : result bool * DB :=
  update id (mkData None None None None status None) now db.

Definition delete (id : option Z) (now : Z) (db : DB) : result bool * DB :=
  match query DeleteById [numParam id] now db with
  | (inr r, db') =>
      if 0 <? rowCount r then (Ok true, db')
      else (Throw (Error (lit "Erro ao excluir solicitação do banco de dados")), db')
  | (inl _, db') =>
      (Throw (Error (lit "Erro ao excluir solicitação do banco de dados")), db')
  end.

(** The statement and the parameters [count] hands to [query]. *)
Definition count_query (filters : Filters) : statement * list param :=
  let params : list param := [] in
  let conditions : list cond := [] in
  let paramIndex := 1%nat in
  let '(conditions, params, paramIndex) :=
    if truthy (f_status filters)
    then (conditions ++ [Equals c_status paramIndex],
          params ++ [PStr (orEmpty (f_status filters))], S paramIndex)
    else (conditions, params, paramIndex) in
  let '(conditions, params, paramIndex) :=
    if truthy (f_setor filters)
    then (conditions ++ [Equals c_setor paramIndex],
          params ++ [PStr (orEmpty (f_setor filters))], S paramIndex)
    else (conditions, params, paramIndex) in
  let '(conditions, params, paramIndex) :=
    if truthy (f_search filters)
    then (conditions ++ [ILikeEither c_nome_pessoa c_equipamento paramIndex],
          params ++ [PStr (lit "%" ++ orEmpty (f_search filters) ++ lit "%")],
          S paramIndex)
    else (conditions, params, paramIndex) in
  (CountAll conditions, params).

Definition count (filters : Filters) (now : Z) (db : DB) : result Z * DB :=
  let '(sql, params) := count_query filters in
  match query sql params now db with
  | (inr r, db') =>
      match rows r with
      | Totals (total :: _) => (Ok total, db')
      | _ => (Throw (Error (lit "Erro ao contar solicitações no banco de dados")), db')
      end
  | (inl _, db') =>
      (Throw (Error (lit "Erro ao contar solicitações no banco de dados")), db')
  end.

Definition getStats (now : Z) (db : DB) : result (list (str * Z)) * DB :=
  match query StatsByStatus [] now db with
  | (inr r, db') =>
      (Ok (match rows r with Groups g => g | _ => [] end), db')
  | (inl _, db') =>
      (Throw (Error (lit "Erro ao buscar estatísticas no banco de dados")), db')
  end.

Definition statusValidos : list str :=
  [lit "Pendente"; lit "Em Andamento"; lit "Comprado"; lit "Cancelado"].

Definition includes (l : list str) (s : str) : bool := existsb (str_eqb s) l.

Definition pushIf (b : bool) (msg : str) (errors : list str) : list str :=
  if b then errors ++ [msg] else errors.

Definition present (v : option str) : bool :=
  match v with Some _ => true | None => false end.

Definition validateData (data : Data) (isUpdate : bool) : list str :=
  let errors : list str := [] in
  let errors :=
    if negb isUpdate then
      fold_left
        (fun errors field =>
           pushIf (blank (getField data field))
             (lit "O campo '" ++ columnName field ++ lit "' é obrigatório") errors)
        required errors
    else
      let errors :=
        pushIf (present (d_nome_pessoa data) && blank (d_nome_pessoa data))
          (lit "Nome da pessoa não pode estar vazio") errors in
      let errors :=
        pushIf (present (d_setor data) && blank (d_setor data))
          (lit "Setor não pode estar vazio") errors in
      let errors :=
        pushIf (present (d_centro_custo data) && blank (d_centro_custo data))
          (lit "Centro de custo não pode estar vazio") errors in
      pushIf (present (d_equipamento data) && blank (d_equipamento data))
        (lit "Equipamento não pode estar vazio") errors in
  let errors :=
    pushIf (truthy (d_status data)
            && negb (includes statusValidos (orEmpty (d_status data))))
      (lit "Status inválido") errors in
  let errors :=
    pushIf (truthy (d_nome_pessoa data) && (255 <? len (orEmpty (d_nome_pessoa data))))
      (lit "Nome da pessoa deve ter no máximo 255 caracteres") errors in
  let errors :=
    pushIf (truthy (d_setor data) && (100 <? len (orEmpty (d_setor data))))
      (lit "Setor deve ter no máximo 100 caracteres") errors in
  pushIf (truthy (d_centro_custo data) && (50 <? len (orEmpty (d_centro_custo data))))
    (lit "Centro de custo deve ter no máximo 50 caracteres") errors.

End SolicitacaoModel.

(** ** Responses (helpers.js) *)

Record Pagination := mkPagination {
  current_page : Z;
  total_pages : Z;
  total_items : Z;
  items_per_page : Z;
  has_previous : bool;
  has_next : bool
}.

Record Stat := mkStat {
  stat_status : str;
  quantidade : Z;
  percentual : Z
}.

Inductive payload :=
| NullData
| IdData (newId : Z)
| RowData (solicitacao : Row)
| ListData (items : list Row) (pagination : Pagination)
| StatsData (stats : list Stat) (total : Z).

(** The two envelopes; [details] are the extra keys spread into an error. *)
Inductive envelope :=
| SuccessBody (msg : str) (data : payload) (timestamp : Z)
| ErrorBody (error : str) (status : Z) (timestamp : Z) (details : list (str * list str)).

Record Response := mkResponse {
  httpStatus : Z;
  json : envelope
}.

Definition createErrorResponse (msg : str) (status : Z)
  (details : list (str * list str)) (now : Z) : envelope :=
  ErrorBody msg status now details.

Definition createSuccessResponse (data : payload) (msg : option str) (now : Z)
  : envelope :=
  SuccessBody (match msg with Some m => m | None => lit "Operação realizada com sucesso" end)
    data now.

(** ** The error middleware (security.js) *)

Definition codeIs (e : JsError) (c : string) : bool :=
  match code e with
  | Some k => str_eqb k (lit c)
  | None => false
  end.

Definition errorHandler (production : bool) (now : Z) (error : JsError) : Response :=
  if codeIs error "23505" then
    mkResponse 409 (createErrorResponse (lit "Dados duplicados") 409 [] now)
  else if codeIs error "ECONNREFUSED" || codeIs error "ENOTFOUND" then
    mkResponse 503
      (createErrorResponse (lit "Serviço temporariamente indisponível") 503 [] now)
  else
    let status :=
      match statusCode error with
      | Some n => if n =? 0 then 500 else n
      | None => 500
      end in
    let msg :=
      if production then lit "Erro interno do servidor" else message error in
    mkResponse status (createErrorResponse msg status [] now).

(** ** Computations that query the store and may throw *)

Definition M (A : Type) : Type := DB -> result A * DB.

Definition ret {A : Type} (a : A) : M A := fun db => (Ok a, db).

Definition bind {A B : Type} (m : M A) (k : A -> M B) : M B :=
  fun db =>
    match m db with
    | (Ok a, db') => k a db'
    | (Throw e, db') => (Throw e, db')
    end.

Notation "x <- m ;; k" := (bind m (fun x => k))
  (at level 61, m at next level, right associativity).

(** What the other requests do to the table between two round trips of
    one handler. *)
Definition interleave (others : DB -> DB) : M unit :=
  fun db => (Ok tt, others db).

(** helpers.js, [asyncHandler], with [errorHandler] mounted as [next]. *)
Definition asyncHandler (production : bool) (now : Z) (fn : M Response)
  : DB -> Response * DB :=
  fun db =>
    match fn db with
    | (Ok r, db') => (r, db')
    | (Throw e, db') => (errorHandler production now e, db')
    end.

(** ** [isNaN] on a string: is it a numeric literal of [Number]? *)

Definition isDigit (c : ascii) : bool := (48 <=? chr c) && (chr c <=? 57).

Fixpoint dropDigits (s : str) : str :=
  match s with
  | [] => []
  | c :: t => if isDigit c then dropDigits t else s
  end.

Definition allDigits (radix : Z) (s : str) : bool :=
  match s with
  | [] => false
  | _ => forallb (fun c => match digitIn radix c with Some _ => true | None => false end) s
  end.

Definition exponentPart (s : str) : bool :=
  match s with
  | [] => true
  | e :: t =>
      if Ascii.eqb e "e" || Ascii.eqb e "E" then
        let t' :=
          match t with
          | sg :: u => if Ascii.eqb sg "+" || Ascii.eqb sg "-" then u else t
          | [] => t
          end in
        allDigits 10 t'
      else false
  end.

Definition unsignedDecimal (s : str) : bool :=
  if str_eqb s (lit "Infinity") then true
  else
    let a := dropDigits s in
    let hasInt := negb (len a =? len s) in
    match a with
    | dot :: b =>
        if Ascii.eqb dot "." then
          let c := dropDigits b in
          (hasInt || negb (len c =? len b)) && exponentPart c
        else hasInt && exponentPart a
    | [] => hasInt
    end.

Definition numericLiteral (s : str) : bool :=
  match trim s with
  | [] => true
  | c :: t =>
      if Ascii.eqb c "+" || Ascii.eqb c "-" then unsignedDecimal t
      else
        match t with
        | k :: h =>
            if Ascii.eqb c "0" && (Ascii.eqb k "x" || Ascii.eqb k "X") then allDigits 16 h
            else if Ascii.eqb c "0" && (Ascii.eqb k "o" || Ascii.eqb k "O") then allDigits 8 h
            else if Ascii.eqb c "0" && (Ascii.eqb k "b" || Ascii.eqb k "B") then allDigits 2 h
            else unsignedDecimal (c :: t)
        | [] => unsignedDecimal (c :: t)
        end
  end.

Definition isNaN (s : str) : bool := negb (numericLiteral s).

(** [Math.round(num / den)], the ratio taken exactly: halves go up. *)
Definition roundRatio (num den : Z) : Z := (2 * num + den) / (2 * den).

(** ** SolicitacaoController *)

Record ListQuery := mkListQuery {
  q_search : option str;
  q_status : option str;
  q_setor : option str;
  q_page : option str;
  q_limit : option str;
  q_orderBy : option str
}.

(** helpers.js, [sanitizeInput] on the object of a request body. *)
Definition sanitizeBody (body : Data) : Data :=
  mkData (option_map sanitizeInput (d_nome_pessoa body))
         (option_map sanitizeInput (d_setor body))
         (option_map sanitizeInput (d_centro_custo body))
         (option_map sanitizeInput (d_equipamento body))
         (option_map sanitizeInput (d_status body))
         (d_data_solicitacao body).

(** [if (v) v = normalizeString(v)] *)
Definition normalizeIf (v : option str) : option str :=
  if truthy v then option_map normalizeString v else v.

Definition normalizeBody (data : Data) : Data :=
  mkData (normalizeIf (d_nome_pessoa data))
         (normalizeIf (d_setor data))
         (normalizeIf (d_centro_custo data))
         (normalizeIf (d_equipamento data))
         (d_status data)
         (d_data_solicitacao data).

Definition nonEmpty {A : Type} (l : list A) : bool :=
  match l with [] => false | _ => true end.

Module SolicitacaoController.

Definition badId (now : Z) : Response :=
  mkResponse 400
    (createErrorResponse
       (lit "ID da solicitação é obrigatório e deve ser um número") 400 [] now).

Definition notFound (now : Z) : Response :=
  mkResponse 404 (createErrorResponse (lit "Solicitação não encontrada") 404 [] now).

Definition invalid (errors : list str) (now : Z) : Response :=
  mkResponse 400
    (createErrorResponse (lit "Dados inválidos") 400 [(lit "errors", errors)] now).

Definition getById_fn (id : str) (now : Z) : M Response :=
  if negb (nonEmpty id) || isNaN id then ret (badId now)
  else
    solicitacao <- SolicitacaoModel.getById (parseInt id) now ;;
    match solicitacao with
    | None => ret (notFound now)
    | Some r => ret (mkResponse 200 (createSuccessResponse (RowData r) None now))
    end.

Definition currentPageOf (q : ListQuery) : Z :=
  Z.max 1 (orNumber (parseIntOf (withDefault (q_page q) 1)) 1).

Definition itemsPerPageOf (q : ListQuery) : Z :=
  Z.min 100 (Z.max 1 (orNumber (parseIntOf (withDefault (q_limit q) 10)) 10)).

Definition filtersOf (q : ListQuery) : Filters :=
  let search := orEmpty (q_search q) in
  let status := orEmpty (q_status q) in
  let setor := orEmpty (q_setor q) in
  mkFilters (if nonEmpty status then Some (sanitizeInput status) else None)
            (if nonEmpty setor then Some (sanitizeInput setor) else None)
            (if nonEmpty search then Some (sanitizeInput search) else None).

Definition orderByOf (q : ListQuery) : str :=
  match q_orderBy q with
  | Some o => o
  | None => lit "data_solicitacao DESC"
  end.

Definition getAll_fn (q : ListQuery) (now : Z) : M Response :=
  let filters := filtersOf q in
  let orderBy := orderByOf q in
  let currentPage := currentPageOf q in
  let itemsPerPage := itemsPerPageOf q in
  let offset := (currentPage - 1) * itemsPerPage in
  solicitacoes <-
    SolicitacaoModel.getAll filters (Some orderBy) (Some itemsPerPage) offset now ;;
  totalItems <- SolicitacaoModel.count filters now ;;
  let totalPages := ceilDiv totalItems itemsPerPage in
  let pagination :=
    mkPagination currentPage totalPages totalItems itemsPerPage
      (1 <? currentPage) (currentPage <? totalPages) in
  ret (mkResponse 200
         (createSuccessResponse (ListData solicitacoes pagination) None now)).

Definition create_fn (body : Data) (now : Z) : M Response :=
  let data := sanitizeBody body in
  let data := normalizeBody data in
  let errors := SolicitacaoModel.validateData data false in
  if nonEmpty errors then ret (invalid errors now)
  else
    newId <- SolicitacaoModel.create data now ;;
    ret (mkResponse 201
           (createSuccessResponse (IdData newId)
              (Some (lit "Solicitação criada com sucesso")) now)).

Definition update_fn (others : DB -> DB) (id : str) (body : Data) (now : Z)
  : M Response :=
  if negb (nonEmpty id) || isNaN id then ret (badId now)
  else
    solicitacao <- SolicitacaoModel.getById (parseInt id) now ;;
    match solicitacao with
    | None => ret (notFound now)
    | Some _ =>
        let data := sanitizeBody body in
        let data := normalizeBody data in
        let errors := SolicitacaoModel.validateData data true in
        if nonEmpty errors then ret (invalid errors now)
        else
          _ <- interleave others ;;
          _ <- SolicitacaoModel.update (parseInt id) data now ;;
          ret (mkResponse 200
                 (createSuccessResponse NullData
                    (Some (lit "Solicitação atualizada com sucesso")) now))
    end.

Definition updateStatus_fn (others : DB -> DB) (id : str) (status : option str)
  (now : Z) : M Response :=
  if negb (nonEmpty id) || isNaN id then ret (badId now)
  else if negb (truthy status) then
    ret (mkResponse 400 (createErrorResponse (lit "Status é obrigatório") 400 [] now))
  else
    solicitacao <- SolicitacaoModel.getById (parseInt id) now ;;
    match solicitacao with
    | None => ret (notFound now)
    | Some _ =>
        if negb (SolicitacaoModel.includes SolicitacaoModel.statusValidos (orEmpty status))
        then
          ret (mkResponse 400
                 (createErrorResponse (lit "Status inválido") 400
                    [(lit "valid_status", SolicitacaoModel.statusValidos)] now))
        else
          _ <- interleave others ;;
          _ <- SolicitacaoModel.updateStatus (parseInt id) status now ;;
          ret (mkResponse 200
                 (createSuccessResponse NullData
                    (Some (lit "Status atualizado com sucesso")) now))
    end.

Definition delete_fn (others : DB -> DB) (id : str) (now : Z) : M Response :=
  if negb (nonEmpty id) || isNaN id then ret (badId now)
  else
    solicitacao <- SolicitacaoModel.getById (parseInt id) now ;;
    match solicitacao with
    | None => ret (notFound now)
    | Some _ =>
        _ <- interleave others ;;
        _ <- SolicitacaoModel.delete (parseInt id) now ;;
        ret (mkResponse 200
               (createSuccessResponse NullData
                  (Some (lit "Solicitação excluída com sucesso")) now))
    end.

Definition sumQuantidade (stats : list (str * Z)) : Z :=
  fold_left (fun total stat => total + snd stat) stats 0.

Definition withPercentage (totalSolicitacoes : Z) (stat : str * Z) : Stat :=
  mkStat (fst stat) (snd stat)
    (if 0 <? totalSolicitacoes
     then roundRatio (snd stat * 100) totalSolicitacoes else 0).

Definition getStats_fn (now : Z) : M Response :=
  stats <- SolicitacaoModel.getStats now ;;
  let totalSolicitacoes := sumQuantidade stats in
  let statsWithPercentage := map (withPercentage totalSolicitacoes) stats in
  ret (mkResponse 200
         (createSuccessResponse (StatsData statsWithPercentage totalSolicitacoes)
            None now)).

(** The handlers as exported: each body under [asyncHandler]. *)
Definition getById production id now := asyncHandler production now (getById_fn id now).
Definition getAll production q now := asyncHandler production now (getAll_fn q now).
Definition create production body now := asyncHandler production now (create_fn body now).
Definition update production others id body now :=
  asyncHandler production now (update_fn others id body now).
Definition updateStatus production others id status now :=
  asyncHandler production now (updateStatus_fn others id status now).
Definition delete production others id now :=
  asyncHandler production now (delete_fn others id now).
Definition getStats production now := asyncHandler production now (getStats_fn now).

End SolicitacaoController.

(** ** Properties named by the specification *)





(** The predicate the filters stand for: equalities on [status] and
    [setor], the pattern [%search%] on either text, all of them required. *)
Definition matchesFilters (f : Filters) (r : Row) : bool :=
  (if truthy (f_status f) then str_eqb (status r) (orEmpty (f_status f)) else true)
  && ((if truthy (f_setor f) then str_eqb (setor r) (orEmpty (f_setor f)) else true)
  && ((if truthy (f_search f)
       then ilike (lit "%" ++ orEmpty (f_search f) ++ lit "%") (nome_pessoa r)
            || ilike (lit "%" ++ orEmpty (f_search f) ++ lit "%") (equipamento r)
       else true)
  && true)).





Definition requiredMessage (field : column) : str :=
  lit "O campo '" ++ columnName field ++ lit "' é obrigatório".

Definition statusErrors (data : Data) : list str :=
  if truthy (d_status data)
     && negb (SolicitacaoModel.includes SolicitacaoModel.statusValidos
                (orEmpty (d_status data)))
  then [lit "Status inválido"] else [].

Definition lengthErrors (data : Data) : list str :=
  (if truthy (d_nome_pessoa data) && (255 <? len (orEmpty (d_nome_pessoa data)))
   then [lit "Nome da pessoa deve ter no máximo 255 caracteres"] else []) ++
  (if truthy (d_setor data) && (100 <? len (orEmpty (d_setor data)))
   then [lit "Setor deve ter no máximo 100 caracteres"] else []) ++
  (if truthy (d_centro_custo data) && (50 <? len (orEmpty (d_centro_custo data)))
   then [lit "Centro de custo deve ter no máximo 50 caracteres"] else []).

(** The sequence is ahead of every stored [id]. *)
Definition seqAhead (db : DB) : Prop :=
  0 <= id_seq db /\ Forall (fun r => id r <= id_seq db) (solicitacoes db).




Definition onlyStatus (status : option str) : Data :=
  mkData None None None None status None.

(** A row with a new [status] and a new [updated_at], the rest as it was. *)
Definition withStatus (s : str) (now : Z) (r : Row) : Row :=
  mkRow (id r) (nome_pessoa r) (setor r) (centro_custo r) (equipamento r)
    (data_solicitacao r) s (created_at r) now.


(** The limit part of [getAll]: the placeholder index and the two
    parameters appended, if any. *)
Definition limitPart (count : nat) (limit : option Z) (offset : Z)
  : option nat * list param :=
  match limit with
  | Some l => if l =? 0 then (None, []) else (Some (S count), [PNum l; PNum offset])
  | None => (None, [])
  end.




(** ** Sample tables and requests *)

Definition tableOne : DB :=
  mkDB [mkRow 1 (lit "JOAO") (lit "TI") (lit "CC-1001") (lit "NOTEBOOK") 10
          (lit "Pendente") 10 10] 1.

(** Another request deletes row 1 between the two round trips. *)
Definition deleteOne (db : DB) : DB := snd (SolicitacaoModel.delete (Some 1) 11 db).





Definition payloadNotebook : Data :=
  mkData (Some (lit " joao ")) (Some (lit "ti")) (Some (lit "cc-1001"))
    (Some (lit "Notebook Dell <script>")) None None.






(** ** More of helpers.js *)

Record Page := mkPage {
  pg_total_pages : Z;
  pg_current_page : Z;
  pg_offset : Z;
  pg_limit : Z;
  pg_has_previous : bool;
  pg_has_next : bool;
  pg_total_items : Z
}.

(** helpers.js, [paginate]. *)
Definition paginate (totalItems itemsPerPage currentPage : Z) : Page :=
  let totalPages := ceilDiv totalItems itemsPerPage in
  let validCurrentPage := Z.max 1 (Z.min currentPage totalPages) in
  let offset := (validCurrentPage - 1) * itemsPerPage in
  mkPage totalPages validCurrentPage offset itemsPerPage
    (1 <? validCurrentPage) (validCurrentPage <? totalPages) totalItems.

Definition quoteChar : ascii := ascii_of_nat 34.

(** The entry of [map] for one of the five characters [escapeHtml]
    replaces. *)
Definition escapeChar (c : ascii) : str :=
  if Ascii.eqb c "&" then lit "&amp;"
  else if Ascii.eqb c "<" then lit "&lt;"
  else if Ascii.eqb c ">" then lit "&gt;"
  else if Ascii.eqb c quoteChar then lit "&quot;"
  else if Ascii.eqb c "'" then lit "&#039;"
  else [c].

(** helpers.js, [escapeHtml] on a string. *)
Definition escapeHtml (text : str) : str := flat_map escapeChar text.

Definition isSpecial (c : ascii) : bool :=
  Ascii.eqb c "&" || Ascii.eqb c "<" || Ascii.eqb c ">" ||
  Ascii.eqb c quoteChar || Ascii.eqb c "'".

(** Reading the five entities back; used to show that [escapeHtml]
    loses nothing. *)
Fixpoint unescapeHtml (s : str) : str :=
  match s with
  | [] => []
  | c :: t =>
      if Ascii.eqb c "&" then
        match t with
        | "a"%char :: "m"%char :: "p"%char :: ";"%char :: u => "&"%char :: unescapeHtml u
        | "l"%char :: "t"%char :: ";"%char :: u => "<"%char :: unescapeHtml u
        | "g"%char :: "t"%char :: ";"%char :: u => ">"%char :: unescapeHtml u
        | "q"%char :: "u"%char :: "o"%char :: "t"%char :: ";"%char :: u =>
            quoteChar :: unescapeHtml u
        | "#"%char :: "0"%char :: "3"%char :: "9"%char :: ";"%char :: u =>
            "'"%char :: unescapeHtml u
        | _ => c :: unescapeHtml t
        end
      else c :: unescapeHtml t
  end.


(** helpers.js, [getStatusClass]: the switch on [status?.toLowerCase()]. *)
Definition getStatusClass (status : option str) : str :=
  match status with
  | None => lit "bg-gray-100 text-gray-800"
  | Some s =>
      let l := toLowerCase s in
      if str_eqb l (lit "pendente") then lit "bg-yellow-100 text-yellow-800"
      else if str_eqb l (lit "comprado") then lit "bg-green-100 text-green-800"
      else if str_eqb l (lit "cancelado") then lit "bg-red-100 text-red-800"
      else if str_eqb l (lit "em andamento") then lit "bg-blue-100 text-blue-800"
      else lit "bg-gray-100 text-gray-800"
  end.

(** ** The CSRF token (helpers.js and the security middleware) *)

Definition hexDigit (n : Z) : ascii :=
  ascii_of_N (Z.to_N (if n <? 10 then 48 + n else 87 + n)).

(** [buffer.toString('hex')] *)
Definition toHex (bytes : str) : str :=
  flat_map (fun b => [hexDigit (chr b / 16); hexDigit (chr b mod 16)]) bytes.

(** helpers.js, [generateCSRFToken], on the 32 bytes read from
    [crypto.randomBytes]. *)
Definition generateCSRFToken (randomBytes : str) : str := toHex randomBytes.

(** [crypto.timingSafeEqual] on the two buffers of bytes: it throws when
    their lengths differ. *)
Definition timingSafeEqual (a b : str) : result bool :=
  if len a =? len b then Ok (str_eqb a b)
  else Throw (mkJsError (lit "Input buffers must have the same byte length")
                (Some (lit "ERR_CRYPTO_TIMING_SAFE_EQUAL_LENGTH")) None).

(** helpers.js, [verifyCSRFToken]. *)
Definition verifyCSRFToken (token sessionToken : option str) : result bool :=
  if negb (truthy token) || negb (truthy sessionToken) then Ok false
  else timingSafeEqual (orEmpty token) (orEmpty sessionToken).

(** What the middleware reads of a request. *)
Record CsrfRequest := mkCsrfRequest {
  body_csrf_token : option str;
  header_x_csrf_token : option str;
  session_csrfToken : option str
}.

(** A middleware either calls [next()] or sends a response. *)
Inductive outcome :=
| Next
| Respond (r : Response).

(** security.js, [csrfProtection]. *)
Definition csrfProtection (req : CsrfRequest) (now : Z) : result outcome :=
  let token :=
    if truthy (body_csrf_token req) then body_csrf_token req
    else header_x_csrf_token req in
  let sessionToken := session_csrfToken req in
  match verifyCSRFToken token sessionToken with
  | Throw e => Throw e
  | Ok false =>
      Ok (Respond (mkResponse 403
            (createErrorResponse (lit "Token de segurança inválido") 403 [] now)))
  | Ok true => Ok Next
  end.

(** The middleware as the application runs it: what it throws goes to
    [errorHandler]. *)
Definition csrfGate (production : bool) (req : CsrfRequest) (now : Z) : outcome :=
  match csrfProtection req now with
  | Ok o => o
  | Throw e => Respond (errorHandler production now e)
  end.

(** security.js, [generateCSRF]: the session token afterwards, which is
    also the token handed to the views. *)
Definition generateCSRF (sessionToken : option str) (randomBytes : str) : option str :=
  if negb (truthy sessionToken) then Some (generateCSRFToken randomBytes)
  else sessionToken.

(** The token a request presents: the body's, or else the header's. *)
Definition presented (req : CsrfRequest) : option str :=
  if truthy (body_csrf_token req) then body_csrf_token req
  else header_x_csrf_token req.

Definition sessionToken : str := lit "5f2c".

(** ** What an update writes, and what the table keeps *)

(** The value a column has after an update: the one supplied, or else
    the one it had. *)
Definition supplied (v : option str) (old : str) : str :=
  match v with Some s => s | None => old end.

(** A row after [update(id, data)] at time [now]. *)
Definition patch (data : Data) (now : Z) (r : Row) : Row :=
  mkRow (id r)
    (supplied (d_nome_pessoa data) (nome_pessoa r))
    (supplied (d_setor data) (setor r))
    (supplied (d_centro_custo data) (centro_custo r))
    (supplied (d_equipamento data) (equipamento r))
    (data_solicitacao r)
    (supplied (d_status data) (status r))
    (created_at r) now.

Definition patchRows (data : Data) (now : Z) (target : Z) (l : list Row) : list Row :=
  map (fun r => if id r =? target then patch data now r else r) l.

Definition hasId (i : Z) (db : DB) : bool :=
  existsb (fun r => id r =? i) (solicitacoes db).

Definition validStatus (s : str) : bool :=
  SolicitacaoModel.includes SolicitacaoModel.statusValidos s.

Definition validStatusTable (db : DB) : Prop :=
  Forall (fun r => validStatus (status r) = true) (solicitacoes db).

Definition filledRow (r : Row) : Prop :=
  nome_pessoa r <> [] /\ setor r <> [] /\ centro_custo r <> [] /\ equipamento r <> [].

Definition filledTable (db : DB) : Prop := Forall filledRow (solicitacoes db).

Definition uniqueIds (db : DB) : Prop :=
  NoDup (map id (solicitacoes db)) /\ seqAhead db.

Definition datedTable (db : DB) : Prop :=
  Forall (fun r => created_at r <= updated_at r) (solicitacoes db).

(** A body that carries no field the model writes. *)
Definition noFields (data : Data) : bool :=
  negb (SolicitacaoModel.present (d_nome_pessoa data))
  && negb (SolicitacaoModel.present (d_setor data))
  && negb (SolicitacaoModel.present (d_centro_custo data))
  && negb (SolicitacaoModel.present (d_equipamento data))
  && negb (SolicitacaoModel.present (d_status data)).

(** The messages of [validateData] for an update about blank fields. *)
Definition blankErrors (data : Data) : list str :=
  (if SolicitacaoModel.present (d_nome_pessoa data) && blank (d_nome_pessoa data)
   then [lit "Nome da pessoa não pode estar vazio"] else []) ++
  (if SolicitacaoModel.present (d_setor data) && blank (d_setor data)
   then [lit "Setor não pode estar vazio"] else []) ++
  (if SolicitacaoModel.present (d_centro_custo data) && blank (d_centro_custo data)
   then [lit "Centro de custo não pode estar vazio"] else []) ++
  (if SolicitacaoModel.present (d_equipamento data) && blank (d_equipamento data)
   then [lit "Equipamento não pode estar vazio"] else []).


(** ** Decimal numerals *)





(** Every field [data] carries fits the column it is written to. *)
Definition fitsData (data : Data) : bool :=
  forallb (fun c => match getField data c with
                    | Some v => fits c v
                    | None => true
                    end) SolicitacaoModel.allowedFields.

(** ** Errors that carry no code *)

(** An error as [new Error(msg)] makes it: no [code], no [statusCode]. *)
Definition plain (e : JsError) : Prop := code e = None /\ statusCode e = None.

(** A computation that throws plain errors only. *)
Definition throwsPlain {A : Type} (m : M A) : Prop :=
  forall db, match fst (m db) with Ok _ => True | Throw e => plain e end.

(** A handler body that answers with a status of [codes] or throws a
    plain error. *)
Definition answers (codes : list Z) (fn : M Response) : Prop :=
  forall db, match fst (fn db) with
             | Ok r => In (httpStatus r) codes
             | Throw e => plain e
             end.

(** ** Reading a list answer, as the client does *)

Definition itemsOf (r : Response) : list Row :=
  match json r with
  | SuccessBody _ (ListData items _) _ => items
  | _ => []
  end.


Definition totalItemsOf (r : Response) : Z :=
  match json r with
  | SuccessBody _ (ListData _ p) _ => total_items p
  | _ => 0
  end.



(** ** The [sanitizeInput] middleware (security.js) *)

(** Every string of the body trimmed. *)
Definition trimBody (body : Data) : Data :=
  mkData (option_map trim (d_nome_pessoa body))
         (option_map trim (d_setor body))
         (option_map trim (d_centro_custo body))
         (option_map trim (d_equipamento body))
         (option_map trim (d_status body))
         (d_data_solicitacao body).

(** ** [isValidEmail] (helpers.js) *)






(** ** [generateSelectOptions] (helpers.js) *)

Definition optionHtml (selected : option str) (entry : str * str) : str :=
  let selectedAttr :=
    match selected with
    | Some s => if str_eqb (fst entry) s then lit "selected" else []
    | None => []
    end in
  lit "<option value=" ++ [quoteChar] ++ escapeHtml (fst entry) ++ [quoteChar] ++
  lit " " ++ selectedAttr ++ lit ">" ++ escapeHtml (snd entry) ++ lit "</option>".

(** [options] is the object as the list of its entries, in order. *)
Definition generateSelectOptions (options : list (str * str)) (selected : option str)
  : str :=
  flat_map (optionHtml selected) options.

(** How often a character occurs in a text. *)
Definition occurrences (c : ascii) (s : str) : nat :=
  List.length (filter (Ascii.eqb c) s).

(** ** [renderPagination] (client script) *)





(** * Theorems *)

(** ** The helpers on sample inputs *)

Example parseInt_examples :
  parseInt (lit "12abc") = Some 12 /\ parseInt (lit "  -7") = Some (-7) /\
  parseInt (lit "abc") = None /\ parseInt (lit "") = None /\
  parseInt (lit "0x1F") = Some 31 /\ parseInt (lit "0x") = None /\
  parseInt (dec 10) = Some 10.
Proof. repeat split; reflexivity. Qed.

Example isNaN_examples :
  isNaN (lit "12") = false /\ isNaN (lit "12abc") = true /\
  isNaN (lit " 7 ") = false /\ isNaN (lit "1e3") = false /\
  isNaN (lit "abc") = true /\ isNaN (lit "-1.5") = false /\
  isNaN (lit "0x1f") = false /\ isNaN (lit ".") = true.
Proof. repeat split; reflexivity. Qed.

Example sanitize_example :
  normalizeString (sanitizeInput (lit "  Notebook Dell <script> ")) =
  lit "NOTEBOOK DELL SCRIPT".
Proof. reflexivity. Qed.

Example seeded_list :
  ceilDiv 25 10 = 3 /\ ceilDiv 0 10 = 0 /\ ceilDiv 30 10 = 3 /\
  roundRatio (1 * 100) 8 = 13 /\ roundRatio (1 * 100) 3 = 33.
Proof. repeat split; reflexivity. Qed.

(** ** Characters and strings *)

Ltac each_char c :=
  destruct c as [[] [] [] [] [] [] [] []]; vm_compute; try reflexivity.




Lemma str_eqb_eq a b : str_eqb a b = true <-> a = b.
Proof.
  revert b; induction a as [|x a IH]; intros [|y b]; simpl; split; intro H;
    try reflexivity; try discriminate.
  - apply andb_prop in H as [Hx Hab]. apply Ascii.eqb_eq in Hx.
    apply IH in Hab. now subst.
  - injection H as -> ->. rewrite Ascii.eqb_refl. now apply IH.
Qed.

Lemma str_eqb_refl a : str_eqb a a = true.
Proof. now apply str_eqb_eq. Qed.

Lemma trimStart_idem s : trimStart (trimStart s) = trimStart s.
Proof.
  induction s as [|c s IH]; simpl; [reflexivity|].
  destruct (isWhiteSpace c) eqn:E; [exact IH|]. simpl. now rewrite E.
Qed.

Lemma trimStart_snoc s c :
  isWhiteSpace c = false -> trimStart (s ++ [c]) = trimStart s ++ [c].
Proof.
  intro Hc. induction s as [|d s IH]; simpl.
  - now rewrite Hc.
  - destruct (isWhiteSpace d); [exact IH | reflexivity].
Qed.

Lemma trimStart_head s :
  trimStart s = s -> s = [] \/ exists c t, s = c :: t /\ isWhiteSpace c = false.
Proof.
  destruct s as [|c t]; [now left|]. intro H. right. exists c, t. split; [reflexivity|].
  simpl in H. destruct (isWhiteSpace c) eqn:E; [|reflexivity].
  exfalso. assert (L : (List.length (trimStart t) <= List.length t)%nat).
  { clear. induction t as [|d t IH]; simpl; [lia|].
    destruct (isWhiteSpace d); simpl; lia. }
  rewrite H in L. simpl in L. lia.
Qed.

Lemma trimStart_trimEnd s : trimStart s = s -> trimStart (trimEnd s) = trimEnd s.
Proof.
  intro H. destruct (trimStart_head s H) as [->|(c & t & -> & Hc)]; [reflexivity|].
  unfold trimEnd. simpl rev. rewrite (trimStart_snoc _ _ Hc), rev_app_distr. simpl.
  now rewrite Hc.
Qed.

Lemma trimEnd_idem s : trimEnd (trimEnd s) = trimEnd s.
Proof. unfold trimEnd. now rewrite rev_involutive, trimStart_idem. Qed.

Lemma trimStart_trim s : trimStart (trim s) = trim s.
Proof. unfold trim. apply trimStart_trimEnd, trimStart_idem. Qed.

Lemma trimEnd_trim s : trimEnd (trim s) = trim s.
Proof. unfold trim. apply trimEnd_idem. Qed.

Lemma trim_idem s : trim (trim s) = trim s.
Proof. unfold trim at 1. now rewrite trimStart_trim, trimEnd_trim. Qed.


















(** ** The store keeps what it is given *)



Lemma updateRows_absent params updateFields target l :
  Forall (fun r => id r <> target) l ->
  updateRows params updateFields target l = inr (l, 0).
Proof.
  induction 1 as [|r t Hr Ht IH]; simpl; [reflexivity|].
  rewrite IH. apply Z.eqb_neq in Hr. now rewrite Hr.
Qed.



(** ** What each model call does to the table *)

Lemma asyncHandler_db production now (fn : M Response) db :
  snd (asyncHandler production now fn db) = snd (fn db).
Proof. unfold asyncHandler. now destruct (fn db) as [[r|e] db']. Qed.

Lemma getById_found i now db :
  SolicitacaoModel.getById (Some i) now db =
  (Ok (hd_error (filter (fun r => id r =? i) (solicitacoes db))), db).
Proof.
  unfold SolicitacaoModel.getById. simpl.
  now destruct (filter (fun r => id r =? i) (solicitacoes db)).
Qed.

Lemma getById_db i now db : snd (SolicitacaoModel.getById i now db) = db.
Proof. destruct i as [i|]; [now rewrite getById_found | reflexivity]. Qed.






(** ** Validation *)

Lemma validateData_create data :
  SolicitacaoModel.validateData data false =
  map requiredMessage (filter (fun f => blank (getField data f)) required)
  ++ statusErrors data ++ lengthErrors data.
Proof.
  unfold SolicitacaoModel.validateData, statusErrors, lengthErrors, required,
    SolicitacaoModel.pushIf, requiredMessage.
  simpl.
  destruct (blank (d_nome_pessoa data)), (blank (d_setor data)),
    (blank (d_centro_custo data)), (blank (d_equipamento data));
    destruct (truthy (d_status data) && _);
    destruct (truthy (d_nome_pessoa data) && _);
    destruct (truthy (d_setor data) && _);
    destruct (truthy (d_centro_custo data) && _); reflexivity.
Qed.



Lemma getField_controller body field :
  In field required ->
  getField (normalizeBody (sanitizeBody body)) field =
  normalizeIf (option_map sanitizeInput (getField body field)).
Proof. simpl. intros [<-|[<-|[<-|[<-|[]]]]]; reflexivity. Qed.




(** ** Create, then read back *)

Lemma app_nil_both {A : Type} (a b : list A) : a ++ b = [] -> a = [] /\ b = [].
Proof. destruct a; [now split | discriminate]. Qed.

Lemma valid_status_fits s :
  SolicitacaoModel.includes SolicitacaoModel.statusValidos s = true ->
  fits c_status s = true.
Proof.
  unfold SolicitacaoModel.includes, SolicitacaoModel.statusValidos. simpl.
  intro H. repeat (apply orb_prop in H as [H|H]; [apply str_eqb_eq in H; now subst|]).
  discriminate.
Qed.

Lemma filter_none {A : Type} (p : A -> bool) (l : list A) :
  filter p l = [] -> forall x, In x l -> p x = false.
Proof.
  intros H x Hx. destruct (p x) eqn:E; [|reflexivity].
  assert (Hin : In x (filter p l)) by (apply filter_In; now split).
  rewrite H in Hin. contradiction.
Qed.





(** ** A mutating statement that affects no row *)

Lemma update_query_shape id data now st params :
  SolicitacaoModel.update_query id data now = Some (st, params) ->
  exists updateFields idIndex,
    st = UpdateSet updateFields idIndex /\
    getParam params idIndex = Some (numParam id).
Proof.
  unfold SolicitacaoModel.update_query.
  destruct data as [[n|] [s|] [c|] [e|] [stt|] dt]; simpl;
    intro H; try discriminate; injection H as <- <-;
    eexists; eexists; split; reflexivity.
Qed.

Lemma db_eta db : mkDB (solicitacoes db) (id_seq db) = db.
Proof. now destruct db. Qed.

Lemma update_absent i data now db :
  Forall (fun r => id r <> i) (solicitacoes db) ->
  SolicitacaoModel.update_query (Some i) data now <> None ->
  SolicitacaoModel.update (Some i) data now db =
  (Throw (Error (lit "Erro ao atualizar solicitação: " ++
                 lit "Solicitação não encontrada ou nenhuma alteração foi feita")), db).
Proof.
  intros Hab Hq. unfold SolicitacaoModel.update.
  destruct (SolicitacaoModel.update_query (Some i) data now) as [[st params]|] eqn:E;
    [|contradiction].
  destruct (update_query_shape _ _ _ _ _ E) as (updateFields & idIndex & -> & Hid).
  unfold query. rewrite Hid. simpl numParam. cbv iota beta.
  rewrite (updateRows_absent params updateFields i _ Hab). cbn.
  now rewrite db_eta.
Qed.

Lemma filter_all {A : Type} (p : A -> bool) (l : list A) :
  Forall (fun x => p x = true) l -> filter p l = l.
Proof. induction 1 as [|x t Hx Ht IH]; simpl; [reflexivity|]. now rewrite Hx, IH. Qed.

Lemma delete_absent i now db :
  Forall (fun r => id r <> i) (solicitacoes db) ->
  SolicitacaoModel.delete (Some i) now db =
  (Throw (Error (lit "Erro ao excluir solicitação do banco de dados")), db).
Proof.
  intro Hab. unfold SolicitacaoModel.delete, query. simpl numParam. cbv iota beta.
  rewrite filter_all.
  - cbn. rewrite Z.sub_diag. cbn. now rewrite db_eta.
  - revert Hab. apply Forall_impl. intros r Hr. apply negb_true_iff.
    now apply Z.eqb_neq.
Qed.

Lemma errorHandler_Error production now msg :
  errorHandler production now (Error msg) =
  mkResponse 500
    (ErrorBody (if production then lit "Erro interno do servidor" else msg) 500 now []).
Proof. reflexivity. Qed.

Lemma getById_present i now db :
  (exists r, In r (solicitacoes db) /\ id r = i) ->
  exists r, SolicitacaoModel.getById (Some i) now db = (Ok (Some r), db).
Proof.
  intros (r & Hin & Hid). rewrite getById_found.
  destruct (filter (fun x => id x =? i) (solicitacoes db)) as [|x t] eqn:E.
  - exfalso. assert (H : In r []).
    { rewrite <- E. apply filter_In. split; [exact Hin | now apply Z.eqb_eq]. }
    contradiction.
  - now exists x.
Qed.

(** C2, as amended.  When the row found by the pre-check is gone by the
    time the mutating statement runs, so that the statement affects no
    row, the model throws a plain [Error] (for update with the words
    "não encontrada", for delete with the general message), which carries
    neither a status nor a store code; the handler sends no success and
    the error middleware answers 500, leaving the table as the other
    requests left it. *)
Theorem zero_rows_answers_500 :
  forall production others idParam body now db i,
    nonEmpty idParam = true -> isNaN idParam = false -> parseInt idParam = Some i ->
    (exists r, In r (solicitacoes db) /\ id r = i) ->
    Forall (fun r => id r <> i) (solicitacoes (others db)) ->
    (SolicitacaoModel.validateData (normalizeBody (sanitizeBody body)) true = [] ->
     SolicitacaoModel.update_query (Some i) (normalizeBody (sanitizeBody body)) now
       <> None ->
     SolicitacaoModel.update (Some i) (normalizeBody (sanitizeBody body)) now (others db) =
       (Throw (Error (lit "Erro ao atualizar solicitação: " ++
                      lit "Solicitação não encontrada ou nenhuma alteração foi feita")),
        others db) /\
     SolicitacaoController.update production others idParam body now db =
       (mkResponse 500
          (ErrorBody
             (if production then lit "Erro interno do servidor"
              else lit "Erro ao atualizar solicitação: " ++
                   lit "Solicitação não encontrada ou nenhuma alteração foi feita")
             500 now []),
        others db)) /\
    (SolicitacaoModel.delete (Some i) now (others db) =
       (Throw (Error (lit "Erro ao excluir solicitação do banco de dados")), others db) /\
     SolicitacaoController.delete production others idParam now db =
       (mkResponse 500
          (ErrorBody
             (if production then lit "Erro interno do servidor"
              else lit "Erro ao excluir solicitação do banco de dados")
             500 now []),
        others db)).
Proof.
  intros production others idParam body now db i Hne Hnum Hid Hpre Hgone.
  destruct (getById_present i now db Hpre) as (r & Hget).
  split.
  - intros Hv Hq.
    pose proof (update_absent i _ now (others db) Hgone Hq) as Hu.
    split; [exact Hu|].
    unfold SolicitacaoController.update, asyncHandler,
      SolicitacaoController.update_fn.
    rewrite Hne, Hnum, Hid. cbn [negb orb]. unfold bind at 1. rewrite Hget.
    rewrite Hv. cbn [nonEmpty]. unfold bind, interleave. rewrite Hu.
    now rewrite errorHandler_Error.
  - pose proof (delete_absent i now (others db) Hgone) as Hd.
    split; [exact Hd|].
    unfold SolicitacaoController.delete, asyncHandler,
      SolicitacaoController.delete_fn.
    rewrite Hne, Hnum, Hid. cbn [negb orb]. unfold bind at 1. rewrite Hget.
    unfold bind, interleave. rewrite Hd.
    now rewrite errorHandler_Error.
Qed.

(** C2, as stated, fails: row 1 exists at the pre-check and is deleted
    before the mutating statement; the update and the delete of row 1
    are then answered 500, not 404. *)
Lemma zero_rows_counterexample :
  SolicitacaoModel.getById (Some 1) 12 tableOne <> (Ok None, tableOne) /\
  solicitacoes (deleteOne tableOne) = [] /\
  httpStatus (fst (SolicitacaoController.update false deleteOne (lit "1")
                     (onlyStatus (Some (lit "Comprado"))) 12 tableOne)) = 500 /\
  httpStatus (fst (SolicitacaoController.delete false deleteOne (lit "1") 12 tableOne))
    = 500 /\
  ~ (forall production others idParam body now db,
       httpStatus
         (fst (SolicitacaoController.update production others idParam body now db))
         <> 500).
Proof.
  split; [discriminate|]. split; [reflexivity|]. split; [reflexivity|].
  split; [reflexivity|].
  intro H.
  apply (H false deleteOne (lit "1") (onlyStatus (Some (lit "Comprado"))) 12 tableOne).
  reflexivity.
Qed.

(** ** Status-only updates *)

Lemma updateRows_status s now i l :
  fits c_status s = true ->
  updateRows [PStr s; PDate now; PNum i] [(c_status, 1%nat); (c_updated_at, 2%nat)] i l =
  inr (map (fun r => if id r =? i then withStatus s now r else r) l,
       len (filter (fun r => id r =? i) l)).
Proof.
  intro Hf. induction l as [|r t IH]; [reflexivity|].
  cbn [updateRows]. rewrite IH. cbn [map filter].
  destruct (id r =? i); [|reflexivity].
  cbn [applySets getParam nth_error setCol fitsParam]. rewrite Hf.
  unfold withStatus, len. cbn [List.length]. do 2 f_equal. lia.
Qed.

Lemma len_filter_pos {A : Type} (p : A -> bool) (l : list A) :
  (0 <? len (filter p l)) = existsb p l.
Proof.
  induction l as [|x t IH]; [reflexivity|]. simpl. destruct (p x); simpl; [|exact IH].
  unfold len. simpl. apply Z.ltb_lt. lia.
Qed.

(** C9.  [updateStatus(id, status)] is [update(id, {status})]: the same
    result and the same table afterwards, whatever the id and the status.
    Without a status both throw "no field to update".  With a status the
    statement sets [status] and [updated_at] and nothing else: every row
    with that id gets the new status and the new update time, every
    other row and every other column is untouched, and the call succeeds
    exactly when some row has that id. *)
Theorem updateStatus_is_update :
  forall idArg statusArg now db,
    SolicitacaoModel.updateStatus idArg statusArg now db =
      SolicitacaoModel.update idArg (onlyStatus statusArg) now db /\
    (statusArg = None ->
       SolicitacaoModel.updateStatus idArg statusArg now db =
       (Throw (Error (lit "Erro ao atualizar solicitação: " ++
                      lit "Nenhum campo para atualizar foi fornecido")), db)) /\
    (forall s, statusArg = Some s ->
       SolicitacaoModel.update_query idArg (onlyStatus statusArg) now =
         Some (UpdateSet [(c_status, 1%nat); (c_updated_at, 2%nat)] 3,
               [PStr s; PDate now; numParam idArg]) /\
       forall i, idArg = Some i -> fits c_status s = true ->
         SolicitacaoModel.updateStatus idArg statusArg now db =
         (if existsb (fun r => id r =? i) (solicitacoes db)
          then Ok true
          else Throw (Error (lit "Erro ao atualizar solicitação: " ++
                 lit "Solicitação não encontrada ou nenhuma alteração foi feita")),
          mkDB (map (fun r => if id r =? i then withStatus s now r else r)
                  (solicitacoes db))
            (id_seq db))).
Proof.
  intros idArg statusArg now db. split; [reflexivity|]. split.
  - intros ->. reflexivity.
  - intros s ->. split; [reflexivity|]. intros i -> Hf.
    unfold SolicitacaoModel.updateStatus, SolicitacaoModel.update.
    change (SolicitacaoModel.update_query (Some i)
              (mkData None None None None (Some s) None) now)
      with (Some (UpdateSet [(c_status, 1%nat); (c_updated_at, 2%nat)] 3,
                  [PStr s; PDate now; PNum i])).
    cbv iota beta. unfold query. cbn [getParam nth_error].
    rewrite (updateRows_status s now i _ Hf). cbn [rowCount].
    rewrite len_filter_pos.
    now destruct (existsb _ _).
Qed.

Example update_status_text :
  option_map (fun q => sqlText (fst q))
    (SolicitacaoModel.update_query (Some 3) (onlyStatus (Some (lit "Comprado"))) 9) =
  Some (nl ++ indent 16 ++ lit "UPDATE solicitacoes " ++
        nl ++ indent 16 ++ lit "SET status = $1, updated_at = $2 " ++
        nl ++ indent 16 ++ lit "WHERE id = $3" ++ nl ++ indent 12).
Proof. reflexivity. Qed.

(** ** Ordering *)

Section SortingFacts.
Context {A : Type} (le : A -> A -> bool).




Hypothesis le_total : forall a b, le a b = true \/ le b a = true.
Hypothesis le_trans : forall a b c, le a b = true -> le b c = true -> le a c = true.


End SortingFacts.




Lemma default_order :
  orderClause (lit "data_solicitacao DESC") =
  Some (fun a b => valueLeb (getCol c_data_solicitacao b) (getCol c_data_solicitacao a)).
Proof. reflexivity. Qed.


(** ** The predicate built from the filters *)

Lemma selectWhere_filter (p : Row -> option bool) (q : Row -> bool) l :
  (forall r, p r = Some (q r)) -> selectWhere p l = Some (filter q l).
Proof.
  intro H. induction l as [|r t IH]; simpl; [reflexivity|]. now rewrite H, IH.
Qed.

(** [getAll] and [count] build the same conditions and the same
    parameters; [getAll] adds the ordering and the limit. *)
Lemma getAll_count_query f orderByArg limit offset :
  exists conditions params,
    SolicitacaoModel.count_query f = (CountAll conditions, params) /\
    SolicitacaoModel.getAll_query f orderByArg limit offset =
      (SelectAll conditions
         (match orderByArg with Some o => o | None => lit "data_solicitacao DESC" end)
         (fst (limitPart (List.length params) limit offset)),
       params ++ snd (limitPart (List.length params) limit offset)) /\
    forall extra r,
      evalWhere (params ++ extra) conditions r = Some (matchesFilters f r).
Proof.
  unfold SolicitacaoModel.count_query, SolicitacaoModel.getAll_query, matchesFilters,
    limitPart.
  destruct (truthy (f_status f)), (truthy (f_setor f)), (truthy (f_search f));
    eexists; eexists; (split; [reflexivity|]);
    (split; [destruct limit as [l|]; [destruct (l =? 0)|]; cbn; rewrite ?app_nil_r;
             reflexivity|]);
    intros extra r; cbn; rewrite ?andb_true_r; reflexivity.
Qed.

Lemma count_counts f now db :
  SolicitacaoModel.count f now db =
  (Ok (len (filter (matchesFilters f) (solicitacoes db))), db).
Proof.
  destruct (getAll_count_query f None None 0) as (conditions & params & Hc & _ & Hw).
  unfold SolicitacaoModel.count. rewrite Hc. unfold query, matching.
  rewrite (selectWhere_filter _ (matchesFilters f)).
  - reflexivity.
  - intro r. specialize (Hw [] r). now rewrite app_nil_r in Hw.
Qed.


Lemma getParam_app_1 (params : list param) x y :
  getParam (params ++ [x; y]) (S (List.length params)) = Some x.
Proof.
  simpl. rewrite nth_error_app2 by lia. now rewrite Nat.sub_diag.
Qed.

Lemma getParam_app_2 (params : list param) x y :
  getParam (params ++ [x; y]) (S (List.length params) + 1) = Some y.
Proof.
  rewrite Nat.add_1_r. cbn [getParam]. rewrite nth_error_app2 by lia.
  now replace (S (List.length params) - List.length params)%nat with 1%nat by lia.
Qed.

Lemma getAll_page f orderByArg limit offset now db le :
  orderClause (match orderByArg with Some o => o
                                | None => lit "data_solicitacao DESC" end) = Some le ->
  0 < limit -> 0 <= offset ->
  SolicitacaoModel.getAll f orderByArg (Some limit) offset now db =
  (Ok (firstn (Z.to_nat limit)
         (skipn (Z.to_nat offset)
            (sortBy le (filter (matchesFilters f) (solicitacoes db))))), db).
Proof.
  intros Ho Hl Hoff.
  destruct (getAll_count_query f orderByArg (Some limit) offset)
    as (conditions & params & _ & Hg & Hw).
  unfold SolicitacaoModel.getAll. rewrite Hg. unfold limitPart.
  replace (limit =? 0) with false by (symmetry; apply Z.eqb_neq; lia).
  cbn [fst snd]. unfold query, matching.
  rewrite (selectWhere_filter _ (matchesFilters f)) by (intro r; apply Hw).
  rewrite Ho. rewrite getParam_app_1, getParam_app_2.
  replace (0 <=? limit) with true by (symmetry; apply Z.leb_le; lia).
  replace (0 <=? offset) with true by (symmetry; apply Z.leb_le; lia).
  reflexivity.
Qed.

(** ** [ILIKE '%search%'] as a substring test *)



Lemma like_percent p s :
  like ("%"%char :: p) s =
  like p s || match s with [] => false | _ :: s' => like ("%"%char :: p) s' end.
Proof. destruct s; reflexivity. Qed.


Lemma like_star p s :
  like ("%"%char :: p) s = true <-> exists a b, s = a ++ b /\ like p b = true.
Proof.
  induction s as [|c s IH]; rewrite like_percent.
  - rewrite orb_false_r. split.
    + intro H. now exists [], [].
    + intros (a & b & E & H). symmetry in E. apply app_eq_nil in E as [_ ->]. exact H.
  - split.
    + intro H. apply orb_prop in H as [H|H].
      * now exists [], (c :: s).
      * apply IH in H as (a & b & -> & H). now exists (c :: a), b.
    + intros (a & b & E & H). apply orb_true_iff. destruct a as [|d a].
      * left. simpl in E. now subst b.
      * right. injection E as _ ->. apply IH. now exists a, b.
Qed.


Lemma like_any s : like ["%"%char] s = true.
Proof. apply like_star. exists s, []. now rewrite app_nil_r. Qed.



(** ** The list handler *)

Lemma ceilDiv_bounds a b :
  0 < b -> b * (ceilDiv a b - 1) < a <= b * ceilDiv a b.
Proof.
  intro Hb. unfold ceilDiv.
  pose proof (Z.mul_div_le (- a) b Hb). pose proof (Z.mul_succ_div_gt (- a) b Hb).
  nia.
Qed.



Lemma page_limit_bounds q :
  1 <= SolicitacaoController.currentPageOf q /\
  1 <= SolicitacaoController.itemsPerPageOf q <= 100.
Proof.
  unfold SolicitacaoController.currentPageOf, SolicitacaoController.itemsPerPageOf. lia.
Qed.

Lemma getAll_handler production q now db le :
  orderClause (SolicitacaoController.orderByOf q) = Some le ->
  let page := SolicitacaoController.currentPageOf q in
  let limit := SolicitacaoController.itemsPerPageOf q in
  let matched :=
    sortBy le (filter (matchesFilters (SolicitacaoController.filtersOf q))
                 (solicitacoes db)) in
  let total := len (filter (matchesFilters (SolicitacaoController.filtersOf q))
                      (solicitacoes db)) in
  SolicitacaoController.getAll production q now db =
  (mkResponse 200
     (SuccessBody (lit "Operação realizada com sucesso")
        (ListData
           (firstn (Z.to_nat limit) (skipn (Z.to_nat ((page - 1) * limit)) matched))
           (mkPagination page (ceilDiv total limit) total limit
              (1 <? page) (page <? ceilDiv total limit)))
        now), db).
Proof.
  intros Ho page limit matched total.
  destruct (page_limit_bounds q) as [Hp [Hl _]]. fold page in Hp. fold limit in Hl.
  unfold SolicitacaoController.getAll, asyncHandler, SolicitacaoController.getAll_fn.
  fold page. fold limit. unfold bind.
  rewrite (getAll_page (SolicitacaoController.filtersOf q)
             (Some (SolicitacaoController.orderByOf q)) limit ((page - 1) * limit)
             now db le Ho) by nia.
  rewrite count_counts. reflexivity.
Qed.







Example getAll_text :
  sqlText (fst (SolicitacaoModel.getAll_query
                  (mkFilters (Some (lit "Pendente")) None (Some (lit "dell")))
                  (Some (lit "id; DROP TABLE solicitacoes")) (Some 10) 20)) =
  lit "SELECT * FROM solicitacoes WHERE status = $1 AND (nome_pessoa ILIKE $2 OR equipamento ILIKE $2) ORDER BY id; DROP TABLE solicitacoes LIMIT $3 OFFSET $4"
  /\
  snd (SolicitacaoModel.getAll_query
         (mkFilters (Some (lit "Pendente")) None (Some (lit "dell")))
         (Some (lit "id; DROP TABLE solicitacoes")) (Some 10) 20) =
  [PStr (lit "Pendente"); PStr (lit "%dell%"); PNum 10; PNum 20].
Proof. split; reflexivity. Qed.

(** ** Statistics *)














Lemma len_cons {A : Type} (x : A) (l : list A) : len (x :: l) = len l + 1.
Proof. unfold len. cbn [List.length]. lia. Qed.






(** ** The theorems at sample inputs *)




Lemma zero_rows_answers_500_witness :
  httpStatus (fst (SolicitacaoController.update true deleteOne (lit "1")
                     (onlyStatus (Some (lit "Cancelado"))) 12 tableOne)) = 500 /\
  httpStatus (fst (SolicitacaoController.delete true deleteOne (lit "1") 12 tableOne))
    = 500.
Proof.
  destruct (zero_rows_answers_500 true deleteOne (lit "1")
              (onlyStatus (Some (lit "Cancelado"))) 12 tableOne 1) as [Hu Hd].
  - reflexivity.
  - reflexivity.
  - reflexivity.
  - eexists. split; [left; reflexivity | reflexivity].
  - constructor.
  - split.
    + destruct Hu as [_ Hu]; [reflexivity | discriminate |]. now rewrite Hu.
    + destruct Hd as [_ Hd]. now rewrite Hd.
Defined.

Lemma updateStatus_is_update_witness :
  SolicitacaoModel.updateStatus (Some 1) (Some (lit "Comprado")) 12 tableOne =
  (Ok true,
   mkDB [mkRow 1 (lit "JOAO") (lit "TI") (lit "CC-1001") (lit "NOTEBOOK") 10
           (lit "Comprado") 10 12] 1) /\
  SolicitacaoModel.updateStatus (Some 1) None 12 tableOne =
  (Throw (Error (lit "Erro ao atualizar solicitação: " ++
                 lit "Nenhum campo para atualizar foi fornecido")), tableOne).
Proof.
  split.
  - destruct (updateStatus_is_update (Some 1) (Some (lit "Comprado")) 12 tableOne)
      as (_ & _ & H).
    destruct (H _ eq_refl) as [_ H2]. now rewrite (H2 1 eq_refl eq_refl).
  - destruct (updateStatus_is_update (Some 1) None 12 tableOne) as (_ & H & _).
    now rewrite (H eq_refl).
Defined.






(** * Further properties of the code *)

(** ** [paginate] *)

(** X1.  For a positive page size and a non-negative number of items,
    [paginate] never leaves the range of pages: the page it reports is
    at least 1 and at most the last page (1 when there is none), a page
    already in range is kept, the offset is never negative and, when
    there are items, it points at an item; there is a previous page
    exactly when the offset is positive and a next page exactly when
    items remain after this page; and paginating again from the
    reported page changes nothing. *)
Theorem paginate_in_range :
  forall totalItems itemsPerPage currentPage,
    0 < itemsPerPage -> 0 <= totalItems ->
    let p := paginate totalItems itemsPerPage currentPage in
    1 <= pg_current_page p <= Z.max 1 (pg_total_pages p) /\
    (1 <= currentPage <= pg_total_pages p -> pg_current_page p = currentPage) /\
    (currentPage < 1 -> pg_current_page p = 1) /\
    (pg_total_pages p < currentPage -> pg_current_page p = Z.max 1 (pg_total_pages p)) /\
    0 <= pg_offset p /\
    (0 < totalItems -> pg_offset p < totalItems) /\
    (pg_has_previous p = true <-> 0 < pg_offset p) /\
    (pg_has_next p = true <-> pg_offset p + itemsPerPage < totalItems) /\
    (pg_total_pages p = 0 <-> totalItems = 0) /\
    paginate totalItems itemsPerPage (pg_current_page p) = p.
Proof.
  intros totalItems itemsPerPage currentPage Hper Htot p.
  pose proof (ceilDiv_bounds totalItems itemsPerPage Hper) as B.
  unfold p, paginate. cbn [pg_current_page pg_total_pages pg_offset pg_has_previous
                             pg_has_next].
  set (pages := ceilDiv totalItems itemsPerPage) in *.
  assert (Hpages : 0 <= pages) by nia.
  split; [lia|]. split; [lia|]. split; [lia|]. split; [lia|].
  split; [nia|]. split; [nia|].
  split; [rewrite Z.ltb_lt; split; intro; nia|].
  split; [rewrite Z.ltb_lt; split; intro; nia|].
  split; [split; intro; nia|].
  replace (Z.max 1 (Z.min (Z.max 1 (Z.min currentPage pages)) pages))
    with (Z.max 1 (Z.min currentPage pages)) by lia.
  reflexivity.
Qed.

Lemma paginate_in_range_witness :
  pg_current_page (paginate 25 10 7) = 3 /\
  pg_offset (paginate 25 10 7) < 25 /\
  paginate 25 10 (pg_current_page (paginate 25 10 7)) = paginate 25 10 7.
Proof.
  destruct (paginate_in_range 25 10 7 ltac:(lia) ltac:(lia))
    as (_ & _ & _ & Hlast & _ & Hoff & _ & _ & _ & E).
  split; [|split].
  - now rewrite Hlast.
  - apply Hoff. lia.
  - exact E.
Defined.



(** ** [escapeHtml] *)

Lemma escapeChar_safe c :
  Forall (fun d => d <> "<"%char /\ d <> ">"%char /\ d <> quoteChar /\ d <> "'"%char)
    (escapeChar c).
Proof.
  destruct c as [[] [] [] [] [] [] [] []]; vm_compute;
    repeat constructor; discriminate.
Qed.

Lemma escapeChar_plain c : isSpecial c = false -> escapeChar c = [c].
Proof.
  unfold isSpecial, escapeChar. intro H.
  repeat (apply orb_false_elim in H as [H ?]).
  now repeat match goal with E : Ascii.eqb _ _ = false |- _ => rewrite E; clear E end;
    rewrite ?H.
Qed.

Lemma escapeChar_longer c : isSpecial c = true -> (4 <= List.length (escapeChar c))%nat.
Proof. destruct c as [[] [] [] [] [] [] [] []]; vm_compute; intro; try discriminate; lia. Qed.

Lemma escapeChar_length c : (1 <= List.length (escapeChar c))%nat.
Proof.
  destruct (isSpecial c) eqn:E.
  - pose proof (escapeChar_longer c E). lia.
  - rewrite (escapeChar_plain c E). simpl. lia.
Qed.

Lemma escapeHtml_length s : (List.length s <= List.length (escapeHtml s))%nat.
Proof.
  induction s as [|c s IH]; simpl; [lia|].
  rewrite length_app. pose proof (escapeChar_length c). lia.
Qed.

Lemma unescape_escapeChar c rest :
  unescapeHtml (escapeChar c ++ rest) = c :: unescapeHtml rest.
Proof.
  destruct (isSpecial c) eqn:E.
  - unfold isSpecial in E.
    repeat (apply orb_prop in E as [E|E]); apply Ascii.eqb_eq in E; subst c;
      reflexivity.
  - rewrite (escapeChar_plain c E). unfold isSpecial in E.
    repeat (apply orb_false_elim in E as [E ?]).
    simpl. now rewrite E.
Qed.

Lemma unescape_escape s : unescapeHtml (escapeHtml s) = s.
Proof.
  induction s as [|c s IH]; [reflexivity|]. simpl.
  now rewrite unescape_escapeChar, IH.
Qed.

(** X3.  Whatever the text, [escapeHtml] leaves no [<], no [>] and no
    quote of either kind in its result, changes nothing else than the
    five characters it replaces (a text without them comes back as it
    is, and only such a text does), works piece by piece, and loses
    nothing: reading the entities back gives the text again, so two
    different texts never escape to the same string. *)
Theorem escapeHtml_is_safe_and_lossless :
  forall text,
    Forall (fun d => d <> "<"%char /\ d <> ">"%char /\ d <> quoteChar /\ d <> "'"%char)
      (escapeHtml text) /\
    (escapeHtml text = text <-> forallb (fun c => negb (isSpecial c)) text = true) /\
    unescapeHtml (escapeHtml text) = text /\
    (forall other, escapeHtml text = escapeHtml other -> text = other) /\
    (forall more, escapeHtml (text ++ more) = escapeHtml text ++ escapeHtml more).
Proof.
  intro text. split; [|split; [|split; [|split]]].
  - induction text as [|c t IH]; simpl; [constructor|].
    apply Forall_app. split; [apply escapeChar_safe | exact IH].
  - induction text as [|c t IH]; simpl; [tauto|].
    destruct (isSpecial c) eqn:E; simpl.
    + split; [|discriminate]. intro H. exfalso.
      apply (f_equal (@List.length ascii)) in H. rewrite length_app in H. simpl in H.
      pose proof (escapeChar_longer c E). pose proof (escapeHtml_length t). lia.
    + rewrite (escapeChar_plain c E). simpl. rewrite <- IH. split.
      * now intros [= H].
      * now intros ->.
  - apply unescape_escape.
  - intros other H. apply (f_equal unescapeHtml) in H.
    now rewrite !unescape_escape in H.
  - intro more. unfold escapeHtml. apply flat_map_app.
Qed.

(** ** [validateRequiredFields] *)



Lemma escapeHtml_is_safe_and_lossless_witness :
  escapeHtml (lit "NOTEBOOK DELL") = lit "NOTEBOOK DELL" /\
  lit "<b>Tom & Jerry</b>" =
    unescapeHtml (lit "&lt;b&gt;Tom &amp; Jerry&lt;/b&gt;").
Proof.
  split.
  - destruct (escapeHtml_is_safe_and_lossless (lit "NOTEBOOK DELL")) as (_ & H & _).
    now apply H.
  - destruct (escapeHtml_is_safe_and_lossless (lit "<b>Tom & Jerry</b>"))
      as (_ & _ & _ & H & _).
    now apply H.
Defined.


(** ** [getStatusClass] *)

Lemma lower_upper_char c : lowerChar (upperChar c) = lowerChar c.
Proof. each_char c. Qed.

Lemma lower_lower_char c : lowerChar (lowerChar c) = lowerChar c.
Proof. each_char c. Qed.

Lemma toLowerCase_upper s : toLowerCase (toUpperCase s) = toLowerCase s.
Proof.
  unfold toLowerCase, toUpperCase. rewrite map_map. apply map_ext, lower_upper_char.
Qed.

Lemma toLowerCase_idem s : toLowerCase (toLowerCase s) = toLowerCase s.
Proof.
  unfold toLowerCase. rewrite map_map. apply map_ext, lower_lower_char.
Qed.

(** X5.  The class [getStatusClass] gives does not depend on the letter
    case of the status: a status, its upper-case form and its lower-case
    form get the same class.  The gray class is for an absent status and
    for every text that is none of the four status names once in lower
    case; the four statuses get four different classes, none of them
    gray. *)
Theorem getStatusClass_ignores_case :
  forall s,
    getStatusClass (Some (toUpperCase s)) = getStatusClass (Some s) /\
    getStatusClass (Some (toLowerCase s)) = getStatusClass (Some s) /\
    (getStatusClass (Some s) = getStatusClass None <->
     ~ In (toLowerCase s) (map toLowerCase SolicitacaoModel.statusValidos)) /\
    NoDup (map (fun v => getStatusClass (Some v)) SolicitacaoModel.statusValidos) /\
    ~ In (getStatusClass None)
        (map (fun v => getStatusClass (Some v)) SolicitacaoModel.statusValidos).
Proof.
  intro s. split; [|split; [|split; [|split]]].
  - unfold getStatusClass. now rewrite toLowerCase_upper.
  - unfold getStatusClass. now rewrite toLowerCase_idem.
  - unfold getStatusClass. cbv zeta.
    change (map toLowerCase SolicitacaoModel.statusValidos)
      with [lit "pendente"; lit "em andamento"; lit "comprado"; lit "cancelado"].
    destruct (str_eqb (toLowerCase s) (lit "pendente")) eqn:E1;
      [apply str_eqb_eq in E1; rewrite E1; split;
         [discriminate | intro H; exfalso; apply H; simpl; tauto]|].
    destruct (str_eqb (toLowerCase s) (lit "comprado")) eqn:E2;
      [apply str_eqb_eq in E2; rewrite E2; split;
         [discriminate | intro H; exfalso; apply H; simpl; tauto]|].
    destruct (str_eqb (toLowerCase s) (lit "cancelado")) eqn:E3;
      [apply str_eqb_eq in E3; rewrite E3; split;
         [discriminate | intro H; exfalso; apply H; simpl; tauto]|].
    destruct (str_eqb (toLowerCase s) (lit "em andamento")) eqn:E4;
      [apply str_eqb_eq in E4; rewrite E4; split;
         [discriminate | intro H; exfalso; apply H; simpl; tauto]|].
    split; [|reflexivity]. intros _ Hin. simpl in Hin.
    destruct Hin as [H|[H|[H|[H|[]]]]]; symmetry in H; apply str_eqb_eq in H; congruence.
  - vm_compute. repeat constructor; simpl; intuition discriminate.
  - vm_compute. intuition discriminate.
Qed.

Lemma getStatusClass_ignores_case_witness :
  getStatusClass (Some (lit "EM ANDAMENTO")) = lit "bg-blue-100 text-blue-800" /\
  getStatusClass (Some (lit "Urgente")) = getStatusClass None.
Proof.
  split.
  - destruct (getStatusClass_ignores_case (lit "em andamento")) as (H & _).
    exact H.
  - destruct (getStatusClass_ignores_case (lit "Urgente")) as (_ & _ & H & _).
    apply H. vm_compute. intuition discriminate.
Defined.

(** ** The CSRF token *)

Lemma timingSafeEqual_same a : timingSafeEqual a a = Ok true.
Proof. unfold timingSafeEqual. now rewrite Z.eqb_refl, str_eqb_refl. Qed.

Lemma orEmpty_truthy v : truthy v = true -> v = Some (orEmpty v).
Proof. destruct v as [[|c t]|]; simpl; intro H; try discriminate; reflexivity. Qed.

Lemma csrfGate_missing production req now :
  truthy (presented req) = false \/ truthy (session_csrfToken req) = false ->
  csrfGate production req now =
  Respond (mkResponse 403 (ErrorBody (lit "Token de segurança inválido") 403 now [])).
Proof.
  intro H. unfold csrfGate, csrfProtection, verifyCSRFToken. fold (presented req).
  destruct H as [H|H]; rewrite H; cbn [negb orb]; [reflexivity|].
  now rewrite orb_true_r.
Qed.

Lemma csrfGate_present production req now :
  truthy (presented req) = true -> truthy (session_csrfToken req) = true ->
  csrfGate production req now =
  if len (orEmpty (presented req)) =? len (orEmpty (session_csrfToken req)) then
    if str_eqb (orEmpty (presented req)) (orEmpty (session_csrfToken req)) then Next
    else Respond (mkResponse 403
                    (ErrorBody (lit "Token de segurança inválido") 403 now []))
  else
    Respond (mkResponse 500
               (ErrorBody
                  (if production then lit "Erro interno do servidor"
                   else lit "Input buffers must have the same byte length")
                  500 now [])).
Proof.
  intros Ht Hs. unfold csrfGate, csrfProtection, verifyCSRFToken. fold (presented req).
  rewrite Ht, Hs. cbn [negb orb]. unfold timingSafeEqual.
  destruct (len _ =? len _); [|reflexivity].
  now destruct (str_eqb _ _).
Qed.

(** X6.  [csrfProtection] lets a request through exactly when the token
    it carries (the one of the body, or the header when the body has
    none) and the token of the session are both non-empty and equal.  A
    missing token and a wrong token of the right length are answered
    403; a wrong token of another length makes [timingSafeEqual] throw,
    and the request is then answered 500 by the error middleware. *)
Theorem csrfProtection_outcomes :
  forall production req now,
    let token :=
      if truthy (body_csrf_token req) then body_csrf_token req
      else header_x_csrf_token req in
    let session := session_csrfToken req in
    let forbidden :=
      Respond (mkResponse 403
                 (ErrorBody (lit "Token de segurança inválido") 403 now [])) in
    (csrfGate production req now = Next <->
     truthy token = true /\ token = session) /\
    (truthy token = false \/ truthy session = false ->
     csrfGate production req now = forbidden) /\
    (truthy token = true -> truthy session = true ->
     len (orEmpty token) = len (orEmpty session) -> token <> session ->
     csrfGate production req now = forbidden) /\
    (truthy token = true -> truthy session = true ->
     len (orEmpty token) <> len (orEmpty session) ->
     csrfGate production req now =
       Respond (mkResponse 500
                  (ErrorBody
                     (if production then lit "Erro interno do servidor"
                      else lit "Input buffers must have the same byte length")
                     500 now []))).
Proof.
  intros production req now token session forbidden.
  change token with (presented req). clear token.
  split; [|split; [|split]].
  - split.
    + intro H. destruct (truthy (presented req)) eqn:Tt.
      * destruct (truthy (session_csrfToken req)) eqn:Ts.
        -- rewrite (csrfGate_present production req now Tt Ts) in H.
           destruct (len _ =? len _); [|discriminate].
           destruct (str_eqb _ _) eqn:E; [|discriminate].
           apply str_eqb_eq in E. split; [reflexivity|].
           unfold session. rewrite (orEmpty_truthy _ Tt), (orEmpty_truthy _ Ts).
           now f_equal.
        -- rewrite (csrfGate_missing production req now (or_intror Ts)) in H.
           discriminate.
      * rewrite (csrfGate_missing production req now (or_introl Tt)) in H.
        discriminate.
    + intros [Tt E]. unfold session in E.
      assert (Ts : truthy (session_csrfToken req) = true) by now rewrite <- E.
      rewrite (csrfGate_present production req now Tt Ts), <- E.
      now rewrite Z.eqb_refl, str_eqb_refl.
  - apply csrfGate_missing.
  - intros Tt Ts L Hne. rewrite (csrfGate_present production req now Tt Ts).
    unfold session in *. rewrite L, Z.eqb_refl.
    destruct (str_eqb _ _) eqn:E; [|reflexivity].
    apply str_eqb_eq in E. exfalso. apply Hne.
    rewrite (orEmpty_truthy _ Tt), (orEmpty_truthy _ Ts). now f_equal.
  - intros Tt Ts L. rewrite (csrfGate_present production req now Tt Ts).
    unfold session in *. apply Z.eqb_neq in L. now rewrite L.
Qed.

Lemma csrfProtection_outcomes_witness :
  csrfGate true (mkCsrfRequest None (Some sessionToken) (Some sessionToken)) 12 = Next /\
  csrfGate true (mkCsrfRequest (Some (lit "5f2d")) None (Some sessionToken)) 12 =
    Respond (mkResponse 403
               (ErrorBody (lit "Token de segurança inválido") 403 12 [])) /\
  csrfGate true (mkCsrfRequest (Some (lit "5f2")) None (Some sessionToken)) 12 =
    Respond (mkResponse 500 (ErrorBody (lit "Erro interno do servidor") 500 12 [])).
Proof.
  split; [|split].
  - destruct (csrfProtection_outcomes true
                (mkCsrfRequest None (Some sessionToken) (Some sessionToken)) 12)
      as (H & _).
    apply H. split; reflexivity.
  - destruct (csrfProtection_outcomes true
                (mkCsrfRequest (Some (lit "5f2d")) None (Some sessionToken)) 12)
      as (_ & _ & H & _).
    apply H; [reflexivity | reflexivity | reflexivity | discriminate].
  - destruct (csrfProtection_outcomes true
                (mkCsrfRequest (Some (lit "5f2")) None (Some sessionToken)) 12)
      as (_ & _ & _ & H).
    apply H; [reflexivity | reflexivity | discriminate].
Defined.

Lemma hexDigit_ok n :
  0 <= n < 16 -> isDigit (hexDigit n) = true \/ (97 <= chr (hexDigit n) <= 102).
Proof.
  intro H.
  assert (E : n = 0 \/ n = 1 \/ n = 2 \/ n = 3 \/ n = 4 \/ n = 5 \/ n = 6 \/ n = 7 \/
              n = 8 \/ n = 9 \/ n = 10 \/ n = 11 \/ n = 12 \/ n = 13 \/ n = 14 \/
              n = 15) by lia.
  repeat (destruct E as [->|E]; [first [left; reflexivity | right; vm_compute; split; discriminate]|]).
  subst n. right. vm_compute. split; discriminate.
Qed.

Lemma chr_byte b : 0 <= chr b < 256.
Proof.
  unfold chr. pose proof (N_ascii_bounded b) as L. lia.
Qed.

Lemma hexDigits_of_byte b :
  Forall (fun c => isDigit c = true \/ (97 <= chr c <= 102))
    [hexDigit (chr b / 16); hexDigit (chr b mod 16)].
Proof.
  pose proof (chr_byte b) as L.
  constructor; [|constructor; [|constructor]]; apply hexDigit_ok.
  - split; [apply Z.div_pos; lia | apply Z.div_lt_upper_bound; lia].
  - apply Z.mod_pos_bound. lia.
Qed.

Lemma toHex_nonempty bytes : bytes <> [] -> truthy (Some (toHex bytes)) = true.
Proof. destruct bytes; [contradiction | reflexivity]. Qed.

(** X7.  The token [generateCSRF] leaves in the session is never empty:
    a session that has one keeps it, whatever the random bytes, and a
    session without one gets two lower-case hexadecimal digits for each
    random byte.  A request of that session which presents this token,
    in its body or in the header, passes [csrfProtection]. *)
Theorem generated_token_is_accepted :
  forall production session randomBytes now,
    randomBytes <> [] ->
    let token := generateCSRF session randomBytes in
    truthy token = true /\
    (truthy session = true -> token = session) /\
    (truthy session = false ->
       token = Some (generateCSRFToken randomBytes) /\
       len (generateCSRFToken randomBytes) = 2 * len randomBytes /\
       Forall (fun c => isDigit c = true \/ (97 <= chr c <= 102))
         (generateCSRFToken randomBytes)) /\
    (forall later, generateCSRF token later = token) /\
    (forall header, csrfGate production (mkCsrfRequest token header token) now = Next) /\
    (forall body, truthy body = false ->
       csrfGate production (mkCsrfRequest body token token) now = Next).
Proof.
  intros production session randomBytes now Hne token.
  assert (Ht : truthy token = true).
  { unfold token, generateCSRF. destruct (truthy session) eqn:E; simpl; [exact E|].
    now apply toHex_nonempty. }
  assert (Hpass : verifyCSRFToken token token = Ok true).
  { unfold verifyCSRFToken. rewrite Ht. cbn [negb orb]. apply timingSafeEqual_same. }
  split; [exact Ht|]. split; [|split; [|split; [|split]]].
  - intro Hs. unfold token, generateCSRF. now rewrite Hs.
  - intro Hs. unfold token, generateCSRF. rewrite Hs. cbn [negb].
    split; [reflexivity|]. split.
    + unfold generateCSRFToken, toHex, len. clear.
      induction randomBytes as [|b t IH]; [reflexivity|].
      cbn [flat_map List.length app] in *. lia.
    + unfold generateCSRFToken, toHex. clear.
      induction randomBytes as [|b t IH]; [constructor|].
      cbn [flat_map]. apply Forall_app. split; [apply hexDigits_of_byte | exact IH].
  - intro later. unfold generateCSRF. now rewrite Ht.
  - intro header. unfold csrfGate, csrfProtection.
    cbn [body_csrf_token header_x_csrf_token session_csrfToken].
    now rewrite Ht, Hpass.
  - intros body Hb. unfold csrfGate, csrfProtection.
    cbn [body_csrf_token header_x_csrf_token session_csrfToken].
    now rewrite Hb, Hpass.
Qed.

Lemma generated_token_is_accepted_witness :
  generateCSRF None (lit "K!") = Some (lit "4b21") /\
  csrfGate true
    (mkCsrfRequest (generateCSRF None (lit "K!")) None (generateCSRF None (lit "K!")))
    12 = Next.
Proof.
  destruct (generated_token_is_accepted true None (lit "K!") 12) as (_ & _ & H & _ & P & _).
  - discriminate.
  - split; [|apply P]. destruct H as [H _]; [reflexivity|]. now rewrite H.
Defined.

(** ** The table after each model call *)

Lemma updateRows_result params updateFields target (F : Row -> Row) l l' n :
  (forall r r', applySets params updateFields r = inr r' -> r' = F r) ->
  updateRows params updateFields target l = inr (l', n) ->
  l' = map (fun r => if id r =? target then F r else r) l /\
  n = len (filter (fun r => id r =? target) l).
Proof.
  intro HF. revert l' n. induction l as [|r t IH]; intros l' n H; simpl in H.
  - injection H as <- <-. now split.
  - destruct (updateRows params updateFields target t) as [e|[t' m]]; [discriminate|].
    destruct (IH t' m eq_refl) as [-> ->]. cbn [map filter].
    destruct (id r =? target).
    + destruct (applySets params updateFields r) as [e|r'] eqn:Ea; [discriminate|].
      injection H as <- <-. rewrite (HF r r' Ea), len_cons. now split.
    + injection H as <- <-. now split.
Qed.

Lemma update_query_patch idArg data now st params :
  SolicitacaoModel.update_query idArg data now = Some (st, params) ->
  exists updateFields idIndex,
    st = UpdateSet updateFields idIndex /\
    getParam params idIndex = Some (numParam idArg) /\
    forall r r', applySets params updateFields r = inr r' -> r' = patch data now r.
Proof.
  unfold SolicitacaoModel.update_query.
  destruct data as [[n|] [s|] [c|] [e|] [stt|] dt]; simpl;
    intro H; try discriminate; injection H as <- <-;
    eexists; eexists; (split; [reflexivity|]); (split; [reflexivity|]);
    intros r r' Ha; cbn in Ha;
    repeat match type of Ha with
           | context [if ?b then _ else _] => destruct b; [|discriminate]
           end;
    injection Ha as <-; reflexivity.
Qed.

(** The table after [update]: untouched, or every row with the id
    patched. *)
Lemma update_table idArg data now db :
  snd (SolicitacaoModel.update idArg data now db) = db \/
  exists i, idArg = Some i /\
            snd (SolicitacaoModel.update idArg data now db) =
            mkDB (patchRows data now i (solicitacoes db)) (id_seq db).
Proof.
  unfold SolicitacaoModel.update.
  destruct (SolicitacaoModel.update_query idArg data now) as [[st params]|] eqn:Eq;
    [|now left].
  destruct (update_query_patch idArg data now st params Eq)
    as (updateFields & idIndex & -> & Hid & HF).
  unfold query. rewrite Hid. destruct idArg as [i|]; simpl numParam; cbv iota beta;
    [|now left].
  destruct (updateRows params updateFields i (solicitacoes db)) as [e|[l n]] eqn:Eu;
    [now left|].
  destruct (updateRows_result _ _ _ _ _ _ _ HF Eu) as [-> _].
  right. exists i. split; [reflexivity|]. cbn [rowCount]. now destruct (0 <? n).
Qed.

Lemma delete_table idArg now db :
  snd (SolicitacaoModel.delete idArg now db) = db \/
  exists i, idArg = Some i /\
            snd (SolicitacaoModel.delete idArg now db) =
            mkDB (filter (fun r => negb (id r =? i)) (solicitacoes db)) (id_seq db).
Proof.
  unfold SolicitacaoModel.delete. destruct idArg as [i|]; simpl; [|now left].
  right. exists i. split; [reflexivity|]. now destruct (0 <? _).
Qed.

(** The table after [create]: untouched, or with the sequence moved on
    after a duplicate key, or with one row more. *)
Lemma create_table data now db :
  snd (SolicitacaoModel.create data now db) = db \/
  snd (SolicitacaoModel.create data now db) = mkDB (solicitacoes db) (id_seq db + 1) \/
  (Forall (fun f => blank (getField data f) = false) required /\
   hasId (id_seq db + 1) db = false /\
   snd (SolicitacaoModel.create data now db) =
   mkDB (solicitacoes db ++
         [mkRow (id_seq db + 1)
            (trim (orEmpty (d_nome_pessoa data))) (trim (orEmpty (d_setor data)))
            (trim (orEmpty (d_centro_custo data))) (trim (orEmpty (d_equipamento data)))
            (match d_data_solicitacao data with Some t => t | None => now end)
            (if truthy (d_status data) then orEmpty (d_status data) else lit "Pendente")
            now now])
     (id_seq db + 1)).
Proof.
  unfold SolicitacaoModel.create.
  destruct (find _ required) eqn:Ef; [now left|]. cbv zeta. unfold query.
  destruct (_ && _); [|now left]. unfold hasId.
  destruct (existsb _ (solicitacoes db)) eqn:Ee; [right; now left|].
  right. right. split; [|split; [reflexivity|reflexivity]].
  apply Forall_forall. intros f Hf.
  pose proof (find_none _ _ Ef f Hf) as H. exact H.
Qed.

(** The table after each handler, in terms of the model call it ends with. *)
Lemma create_handler_table production body now db :
  snd (SolicitacaoController.create production body now db) = db \/
  (SolicitacaoModel.validateData (normalizeBody (sanitizeBody body)) false = [] /\
   snd (SolicitacaoController.create production body now db) =
   snd (SolicitacaoModel.create (normalizeBody (sanitizeBody body)) now db)).
Proof.
  unfold SolicitacaoController.create. rewrite !asyncHandler_db.
  unfold SolicitacaoController.create_fn. cbv zeta.
  destruct (SolicitacaoModel.validateData _ false) eqn:E; [|now left]. cbn [nonEmpty].
  right. split; [reflexivity|]. unfold bind, ret.
  destruct (SolicitacaoModel.create _ now db) as [[i|e] db']; reflexivity.
Qed.

Lemma update_handler_table production others idParam body now db :
  snd (SolicitacaoController.update production others idParam body now db) = db \/
  (SolicitacaoModel.validateData (normalizeBody (sanitizeBody body)) true = [] /\
   snd (SolicitacaoController.update production others idParam body now db) =
   snd (SolicitacaoModel.update (parseInt idParam) (normalizeBody (sanitizeBody body))
          now (others db))).
Proof.
  unfold SolicitacaoController.update. rewrite !asyncHandler_db.
  unfold SolicitacaoController.update_fn. cbv zeta.
  destruct (negb (nonEmpty idParam) || isNaN idParam); [now left|].
  unfold bind, interleave, ret.
  pose proof (getById_db (parseInt idParam) now db) as G.
  destruct (SolicitacaoModel.getById (parseInt idParam) now db) as [[[r|]|e] db1];
    simpl in G; subst db1; try (now left).
  destruct (SolicitacaoModel.validateData _ true) eqn:E; [|now left]. cbn [nonEmpty].
  right. split; [reflexivity|].
  destruct (SolicitacaoModel.update _ _ now (others db)) as [[b|e] db']; reflexivity.
Qed.

Lemma updateStatus_handler_table production others idParam statusArg now db :
  snd (SolicitacaoController.updateStatus production others idParam statusArg now db)
    = db \/
  (truthy statusArg = true /\ validStatus (orEmpty statusArg) = true /\
   snd (SolicitacaoController.updateStatus production others idParam statusArg now db) =
   snd (SolicitacaoModel.update (parseInt idParam) (onlyStatus statusArg) now
          (others db))).
Proof.
  unfold SolicitacaoController.updateStatus. rewrite !asyncHandler_db.
  unfold SolicitacaoController.updateStatus_fn.
  destruct (negb (nonEmpty idParam) || isNaN idParam); [now left|].
  destruct (truthy statusArg) eqn:T; cbn [negb]; [|now left].
  unfold bind, interleave, ret.
  pose proof (getById_db (parseInt idParam) now db) as G.
  destruct (SolicitacaoModel.getById (parseInt idParam) now db) as [[[r|]|e] db1];
    simpl in G; subst db1; try (now left).
  fold (validStatus (orEmpty statusArg)).
  destruct (validStatus (orEmpty statusArg)) eqn:V; cbn [negb]; [|now left].
  right. split; [reflexivity|]. split; [reflexivity|].
  unfold SolicitacaoModel.updateStatus, onlyStatus.
  destruct (SolicitacaoModel.update _ _ now (others db)) as [[b|e] db']; reflexivity.
Qed.

Lemma delete_handler_table production others idParam now db :
  snd (SolicitacaoController.delete production others idParam now db) = db \/
  snd (SolicitacaoController.delete production others idParam now db) =
  snd (SolicitacaoModel.delete (parseInt idParam) now (others db)).
Proof.
  unfold SolicitacaoController.delete. rewrite !asyncHandler_db.
  unfold SolicitacaoController.delete_fn.
  destruct (negb (nonEmpty idParam) || isNaN idParam); [now left|].
  unfold bind, interleave, ret.
  pose proof (getById_db (parseInt idParam) now db) as G.
  destruct (SolicitacaoModel.getById (parseInt idParam) now db) as [[[r|]|e] db1];
    simpl in G; subst db1; try (now left).
  right.
  destruct (SolicitacaoModel.delete _ now (others db)) as [[b|e] db']; reflexivity.
Qed.

(** ** Validation of an update *)

Lemma validateData_update data :
  SolicitacaoModel.validateData data true =
  blankErrors data ++ statusErrors data ++ lengthErrors data.
Proof.
  unfold SolicitacaoModel.validateData, blankErrors, statusErrors, lengthErrors,
    SolicitacaoModel.pushIf.
  cbn [negb].
  destruct (SolicitacaoModel.present (d_nome_pessoa data) && blank (d_nome_pessoa data)),
    (SolicitacaoModel.present (d_setor data) && blank (d_setor data)),
    (SolicitacaoModel.present (d_centro_custo data) && blank (d_centro_custo data)),
    (SolicitacaoModel.present (d_equipamento data) && blank (d_equipamento data));
    destruct (truthy (d_status data) && _);
    destruct (truthy (d_nome_pessoa data) && _);
    destruct (truthy (d_setor data) && _);
    destruct (truthy (d_centro_custo data) && _); reflexivity.
Qed.

Lemma blankErrors_nil data :
  blankErrors data = [] ->
  forall f v, In f required -> getField data f = Some v -> blank (Some v) = false.
Proof.
  unfold blankErrors. intros H f v Hf Hv.
  destruct (blank (Some v)) eqn:B; [|reflexivity]. exfalso.
  simpl in Hf. destruct Hf as [<- | [<- | [<- | [<- | []]]]]; simpl in Hv; rewrite Hv in H;
    cbn [SolicitacaoModel.present andb] in H; rewrite B in H;
    repeat match type of H with
           | context [if ?b then _ else _] => destruct b
           end; discriminate.
Qed.

Lemma statusErrors_nil data :
  statusErrors data = [] ->
  truthy (d_status data) = true -> validStatus (orEmpty (d_status data)) = true.
Proof.
  unfold statusErrors, validStatus. intros H T. rewrite T in H. cbn [andb] in H.
  now destruct (SolicitacaoModel.includes _ _).
Qed.

Lemma valid_update data :
  SolicitacaoModel.validateData data true = [] ->
  blankErrors data = [] /\ statusErrors data = [] /\ lengthErrors data = [].
Proof.
  rewrite validateData_update. intro H.
  apply app_nil_both in H as [H1 H]. apply app_nil_both in H as [H2 H3]. tauto.
Qed.

Lemma valid_create data :
  SolicitacaoModel.validateData data false = [] ->
  Forall (fun f => blank (getField data f) = false) required /\
  statusErrors data = [] /\ lengthErrors data = [].
Proof.
  rewrite validateData_create. intro H.
  apply app_nil_both in H as [H1 H]. apply app_nil_both in H as [H2 H3].
  split; [|tauto]. apply map_eq_nil in H1. apply Forall_forall.
  now apply filter_none.
Qed.

Lemma not_blank_filled v : blank v = false -> trim (orEmpty v) <> [] /\ orEmpty v <> [].
Proof.
  destruct v as [s|]; [|discriminate]. simpl. intro H.
  apply orb_false_elim in H as [H1 H2]. split.
  - intro E. now rewrite E in H2.
  - intro E. now rewrite E in H1.
Qed.

(** ** Invariants of the table *)

Lemma patchRows_ids data now i l : map id (patchRows data now i l) = map id l.
Proof.
  unfold patchRows. rewrite map_map. apply map_ext. intro r.
  now destruct (id r =? i).
Qed.

Lemma patchRows_Forall (P : Row -> Prop) data now i l :
  (forall r, P r -> P (patch data now r)) ->
  Forall P l -> Forall P (patchRows data now i l).
Proof.
  intros HP Hl. unfold patchRows. apply Forall_map. revert Hl. apply Forall_impl.
  intros r Hr. destruct (id r =? i); [now apply HP | exact Hr].
Qed.

Lemma filter_Forall {A : Type} (P : A -> Prop) (p : A -> bool) l :
  Forall P l -> Forall P (filter p l).
Proof.
  intro H. apply Forall_forall. intros x Hx. apply filter_In in Hx as [Hx _].
  revert x Hx. now apply Forall_forall.
Qed.

Lemma validStatus_default : validStatus (lit "Pendente") = true.
Proof. reflexivity. Qed.

(** X8.  Every row keeps a status among the four values under the
    create, status-update and delete handlers: a table in which all
    statuses are valid stays so, whatever the request.  The update
    handler keeps it too when the body has no status or a status that is
    not empty once sanitised; an empty status is not validated and is
    written as it is. *)
Theorem status_stays_valid :
  (forall production body now db,
     validStatusTable db ->
     validStatusTable (snd (SolicitacaoController.create production body now db))) /\
  (forall production others idParam statusArg now db,
     (forall d, validStatusTable d -> validStatusTable (others d)) ->
     validStatusTable db ->
     validStatusTable
       (snd (SolicitacaoController.updateStatus production others idParam statusArg
               now db))) /\
  (forall production others idParam now db,
     (forall d, validStatusTable d -> validStatusTable (others d)) ->
     validStatusTable db ->
     validStatusTable
       (snd (SolicitacaoController.delete production others idParam now db))) /\
  (forall production others idParam body now db,
     (forall d, validStatusTable d -> validStatusTable (others d)) ->
     validStatusTable db ->
     d_status body = None \/
       truthy (option_map sanitizeInput (d_status body)) = true ->
     validStatusTable
       (snd (SolicitacaoController.update production others idParam body now db))) /\
  (forall now r s,
     sanitizeInput s = [] ->
     SolicitacaoModel.validateData
       (normalizeBody (sanitizeBody (onlyStatus (Some s)))) true = [] /\
     status (patch (normalizeBody (sanitizeBody (onlyStatus (Some s)))) now r) = []).
Proof.
  split; [|split; [|split; [|split]]].
  - intros production body now db Hdb.
    destruct (create_handler_table production body now db) as [->|[Hv ->]];
      [exact Hdb|].
    destruct (valid_create _ Hv) as (_ & Hs & _).
    destruct (create_table (normalizeBody (sanitizeBody body)) now db)
      as [->|[->|(_ & _ & ->)]]; try exact Hdb.
    unfold validStatusTable. cbn [solicitacoes]. apply Forall_app. split; [exact Hdb|].
    constructor; [|constructor]. cbn [status].
    destruct (truthy (d_status (normalizeBody (sanitizeBody body)))) eqn:T;
      [now apply statusErrors_nil | apply validStatus_default].
  - intros production others idParam statusArg now db Ho Hdb.
    destruct (updateStatus_handler_table production others idParam statusArg now db)
      as [->|(T & V & ->)]; [exact Hdb|].
    destruct (update_table (parseInt idParam) (onlyStatus statusArg) now (others db))
      as [->|(i & _ & ->)]; [now apply Ho|].
    apply patchRows_Forall; [|now apply Ho].
    intros r _. cbn [patch status onlyStatus d_status].
    rewrite (orEmpty_truthy _ T). exact V.
  - intros production others idParam now db Ho Hdb.
    destruct (delete_handler_table production others idParam now db) as [-> | ->];
      [exact Hdb|].
    destruct (delete_table (parseInt idParam) now (others db)) as [->|(i & _ & ->)];
      [now apply Ho|].
    apply filter_Forall. now apply Ho.
  - intros production others idParam body now db Ho Hdb Hst.
    destruct (update_handler_table production others idParam body now db)
      as [->|(Hv & ->)]; [exact Hdb|].
    destruct (valid_update _ Hv) as (_ & Hs & _).
    destruct (update_table (parseInt idParam) (normalizeBody (sanitizeBody body)) now
                (others db)) as [->|(i & _ & ->)]; [now apply Ho|].
    apply patchRows_Forall; [|now apply Ho].
    intros r Hr. cbn [patch status normalizeBody sanitizeBody d_status].
    destruct Hst as [E|T].
    + now rewrite E.
    + pose proof (statusErrors_nil _ Hs) as V.
      cbn [normalizeBody sanitizeBody d_status] in V. specialize (V T).
      now rewrite (orEmpty_truthy _ T).
  - intros now r s Hs. unfold onlyStatus, sanitizeBody, normalizeBody.
    cbn [d_nome_pessoa d_setor d_centro_custo d_equipamento d_status
         d_data_solicitacao option_map].
    rewrite Hs. split; reflexivity.
Qed.

Lemma status_stays_valid_witness :
  validStatusTable
    (snd (SolicitacaoController.updateStatus false (fun d => d) (lit "1")
            (Some (lit "Comprado")) 12 tableOne)) /\
  validStatusTable
    (snd (SolicitacaoController.update false (fun d => d) (lit "1")
            payloadNotebook 12 tableOne)) /\
  status (patch (normalizeBody (sanitizeBody (onlyStatus (Some (lit "<>"))))) 12
            (mkRow 1 (lit "JOAO") (lit "TI") (lit "CC-1001") (lit "NOTEBOOK") 10
               (lit "Pendente") 10 10)) = [].
Proof.
  destruct status_stays_valid as (_ & Hs & _ & Hu & He).
  assert (V : validStatusTable tableOne) by (constructor; [reflexivity | constructor]).
  split; [|split].
  - apply Hs; [intros d H; exact H | exact V].
  - apply Hu; [intros d H; exact H | exact V | left; reflexivity].
  - apply He. reflexivity.
Defined.

Lemma supplied_filled v old :
  (forall s, v = Some s -> blank (Some s) = false) -> old <> [] -> supplied v old <> [].
Proof.
  destruct v as [s|]; simpl; intros H Ho; [|exact Ho].
  apply (not_blank_filled (Some s)). now apply H.
Qed.

Lemma patch_filled data now r :
  (forall f v, In f required -> getField data f = Some v -> blank (Some v) = false) ->
  filledRow r -> filledRow (patch data now r).
Proof.
  intros H (H1 & H2 & H3 & H4). unfold filledRow, patch.
  cbn [nome_pessoa setor centro_custo equipamento].
  repeat split; apply supplied_filled; try assumption; intros s E.
  - apply (H c_nome_pessoa); [simpl; tauto | exact E].
  - apply (H c_setor); [simpl; tauto | exact E].
  - apply (H c_centro_custo); [simpl; tauto | exact E].
  - apply (H c_equipamento); [simpl; tauto | exact E].
Qed.

(** X9.  The four required text fields of a stored row are never
    empty: a table in which they are all filled stays so under the
    create, update, status-update and delete handlers, whatever the
    request. *)
Theorem required_fields_stay_filled :
  (forall production body now db,
     filledTable db ->
     filledTable (snd (SolicitacaoController.create production body now db))) /\
  (forall production others idParam body now db,
     (forall d, filledTable d -> filledTable (others d)) ->
     filledTable db ->
     filledTable
       (snd (SolicitacaoController.update production others idParam body now db))) /\
  (forall production others idParam statusArg now db,
     (forall d, filledTable d -> filledTable (others d)) ->
     filledTable db ->
     filledTable
       (snd (SolicitacaoController.updateStatus production others idParam statusArg
               now db))) /\
  (forall production others idParam now db,
     (forall d, filledTable d -> filledTable (others d)) ->
     filledTable db ->
     filledTable (snd (SolicitacaoController.delete production others idParam now db))).
Proof.
  split; [|split; [|split]].
  - intros production body now db Hdb.
    destruct (create_handler_table production body now db) as [->|[_ ->]];
      [exact Hdb|].
    destruct (create_table (normalizeBody (sanitizeBody body)) now db)
      as [->|[->|(Hb & _ & ->)]]; try exact Hdb.
    unfold filledTable. cbn [solicitacoes]. apply Forall_app. split; [exact Hdb|].
    constructor; [|constructor].
    pose proof (proj1 (Forall_forall _ _) Hb) as B.
    unfold filledRow. cbn [nome_pessoa setor centro_custo equipamento].
    repeat split.
    + apply (not_blank_filled _ (B c_nome_pessoa ltac:(simpl; tauto))).
    + apply (not_blank_filled _ (B c_setor ltac:(simpl; tauto))).
    + apply (not_blank_filled _ (B c_centro_custo ltac:(simpl; tauto))).
    + apply (not_blank_filled _ (B c_equipamento ltac:(simpl; tauto))).
  - intros production others idParam body now db Ho Hdb.
    destruct (update_handler_table production others idParam body now db)
      as [->|(Hv & ->)]; [exact Hdb|].
    destruct (valid_update _ Hv) as (Hb & _ & _).
    destruct (update_table (parseInt idParam) (normalizeBody (sanitizeBody body)) now
                (others db)) as [->|(i & _ & ->)]; [now apply Ho|].
    apply patchRows_Forall; [|now apply Ho].
    intro r. apply patch_filled. now apply blankErrors_nil.
  - intros production others idParam statusArg now db Ho Hdb.
    destruct (updateStatus_handler_table production others idParam statusArg now db)
      as [->|(_ & _ & ->)]; [exact Hdb|].
    destruct (update_table (parseInt idParam) (onlyStatus statusArg) now (others db))
      as [->|(i & _ & ->)]; [now apply Ho|].
    apply patchRows_Forall; [|now apply Ho].
    intro r. apply patch_filled. intros f v Hf Hv. exfalso.
    simpl in Hf. destruct Hf as [<- | [<- | [<- | [<- | []]]]]; discriminate.
  - intros production others idParam now db Ho Hdb.
    destruct (delete_handler_table production others idParam now db) as [-> | ->];
      [exact Hdb|].
    destruct (delete_table (parseInt idParam) now (others db)) as [->|(i & _ & ->)];
      [now apply Ho|].
    apply filter_Forall. now apply Ho.
Qed.

Lemma tableOne_filled : filledTable tableOne.
Proof. constructor; [|constructor]. repeat split; discriminate. Qed.

Lemma required_fields_stay_filled_witness :
  filledTable (snd (SolicitacaoController.create false payloadNotebook 100 tableOne)) /\
  filledTable
    (snd (SolicitacaoController.update false (fun d => d) (lit "1")
            payloadNotebook 12 tableOne)).
Proof.
  destruct required_fields_stay_filled as (Hc & Hu & _).
  split.
  - apply Hc. exact tableOne_filled.
  - apply Hu; [intros d H; exact H | exact tableOne_filled].
Defined.

Lemma NoDup_map_filter {A B : Type} (f : A -> B) (p : A -> bool) l :
  NoDup (map f l) -> NoDup (map f (filter p l)).
Proof.
  induction l as [|x t IH]; simpl; intro H; [constructor|].
  inversion H as [|? ? Hx Ht]; subst. destruct (p x); simpl; [|now apply IH].
  constructor; [|now apply IH]. intro Hin. apply Hx.
  apply in_map_iff in Hin as (y & Ey & Hy). apply filter_In in Hy as [Hy _].
  apply in_map_iff. now exists y.
Qed.

Lemma hasId_false i db : hasId i db = false -> ~ In i (map id (solicitacoes db)).
Proof.
  unfold hasId. intros H Hin. apply in_map_iff in Hin as (r & <- & Hr).
  assert (E : existsb (fun x => id x =? id r) (solicitacoes db) = true).
  { apply existsb_exists. exists r. split; [exact Hr | apply Z.eqb_refl]. }
  congruence.
Qed.

(** X10.  Ids are unique and stable: a table whose ids are all
    different, with the sequence ahead of them, stays so under the
    create, update, status-update and delete handlers; an update never
    changes the id of a row nor the rows there are, and the row a
    creation adds has an id no stored row has. *)
Theorem ids_stay_unique :
  (forall production body now db,
     uniqueIds db ->
     uniqueIds (snd (SolicitacaoController.create production body now db))) /\
  (forall production others idParam body now db,
     (forall d, uniqueIds d -> uniqueIds (others d)) ->
     uniqueIds db ->
     uniqueIds
       (snd (SolicitacaoController.update production others idParam body now db))) /\
  (forall production others idParam statusArg now db,
     (forall d, uniqueIds d -> uniqueIds (others d)) ->
     uniqueIds db ->
     uniqueIds
       (snd (SolicitacaoController.updateStatus production others idParam statusArg
               now db))) /\
  (forall production others idParam now db,
     (forall d, uniqueIds d -> uniqueIds (others d)) ->
     uniqueIds db ->
     uniqueIds (snd (SolicitacaoController.delete production others idParam now db))) /\
  (forall production idParam body now db,
     map id (solicitacoes
               (snd (SolicitacaoController.update production (fun d => d) idParam body
                       now db))) = map id (solicitacoes db)).
Proof.
  assert (Hupd : forall id data now db,
             uniqueIds db -> uniqueIds (snd (SolicitacaoModel.update id data now db))).
  { intros i data now db Hdb.
    destruct (update_table i data now db) as [->|(k & _ & ->)]; [exact Hdb|].
    destruct Hdb as [Hn [Hs Hi]]. unfold uniqueIds, seqAhead.
    cbn [solicitacoes id_seq]. rewrite patchRows_ids. split; [exact Hn|].
    split; [exact Hs|]. apply patchRows_Forall; [|exact Hi]. intros r Hr. exact Hr. }
  split; [|split; [|split; [|split]]].
  - intros production body now db Hdb.
    destruct (create_handler_table production body now db) as [->|[_ ->]];
      [exact Hdb|].
    destruct Hdb as [Hn [Hs Hi]].
    destruct (create_table (normalizeBody (sanitizeBody body)) now db)
      as [->|[->|(_ & Hfresh & ->)]]; unfold uniqueIds, seqAhead;
      cbn [solicitacoes id_seq].
    + now repeat split.
    + split; [exact Hn|]. split; [lia|]. revert Hi. apply Forall_impl. intros; lia.
    + split.
      * rewrite map_app. cbn [map id]. apply NoDup_app; [exact Hn | | ].
        -- constructor; [intros [] | constructor].
        -- intros x Hx [<-|[]]. now apply (hasId_false _ _ Hfresh).
      * split; [lia|]. apply Forall_app. split.
        -- revert Hi. apply Forall_impl. intros; lia.
        -- constructor; [cbn [id]; lia | constructor].
  - intros production others idParam body now db Ho Hdb.
    destruct (update_handler_table production others idParam body now db)
      as [->|(_ & ->)]; [exact Hdb|]. apply Hupd. now apply Ho.
  - intros production others idParam statusArg now db Ho Hdb.
    destruct (updateStatus_handler_table production others idParam statusArg now db)
      as [->|(_ & _ & ->)]; [exact Hdb|]. apply Hupd. now apply Ho.
  - intros production others idParam now db Ho Hdb.
    destruct (delete_handler_table production others idParam now db) as [-> | ->];
      [exact Hdb|].
    destruct (delete_table (parseInt idParam) now (others db)) as [->|(i & _ & ->)];
      [now apply Ho|].
    destruct (Ho db Hdb) as [Hn [Hs Hi]]. unfold uniqueIds, seqAhead.
    cbn [solicitacoes id_seq]. split; [now apply NoDup_map_filter|].
    split; [exact Hs | now apply filter_Forall].
  - intros production idParam body now db.
    destruct (update_handler_table production (fun d => d) idParam body now db)
      as [->|(_ & ->)]; [reflexivity|].
    destruct (update_table (parseInt idParam) (normalizeBody (sanitizeBody body)) now db)
      as [->|(i & _ & ->)]; [reflexivity|].
    cbn [solicitacoes]. apply patchRows_ids.
Qed.

Lemma tableOne_unique : uniqueIds tableOne.
Proof.
  split; [|split].
  - constructor; [intros [] | constructor].
  - simpl. lia.
  - constructor; [simpl; lia | constructor].
Qed.

Lemma ids_stay_unique_witness :
  uniqueIds (snd (SolicitacaoController.create false payloadNotebook 100 tableOne)) /\
  uniqueIds (snd (SolicitacaoController.delete false (fun d => d) (lit "1") 12 tableOne)).
Proof.
  destruct ids_stay_unique as (Hc & _ & _ & Hd & _).
  split.
  - apply Hc. exact tableOne_unique.
  - apply Hd; [intros d H; exact H | exact tableOne_unique].
Defined.

(** X11.  No row is ever updated before it was created: a table in which
    [updated_at] is not before [created_at] stays so under the four
    mutating handlers, as long as the clock of the request is not behind
    the creation time of the rows it touches. *)
Theorem updated_not_before_created :
  (forall production body now db,
     datedTable db ->
     datedTable (snd (SolicitacaoController.create production body now db))) /\
  (forall production others idParam body now db,
     (forall d, datedTable d -> datedTable (others d)) ->
     Forall (fun r => created_at r <= now) (solicitacoes (others db)) ->
     datedTable db ->
     datedTable
       (snd (SolicitacaoController.update production others idParam body now db))) /\
  (forall production others idParam statusArg now db,
     (forall d, datedTable d -> datedTable (others d)) ->
     Forall (fun r => created_at r <= now) (solicitacoes (others db)) ->
     datedTable db ->
     datedTable
       (snd (SolicitacaoController.updateStatus production others idParam statusArg
               now db))) /\
  (forall production others idParam now db,
     (forall d, datedTable d -> datedTable (others d)) ->
     datedTable db ->
     datedTable (snd (SolicitacaoController.delete production others idParam now db))).
Proof.
  assert (Hupd : forall id data now db,
             Forall (fun r => created_at r <= now) (solicitacoes db) ->
             datedTable db -> datedTable (snd (SolicitacaoModel.update id data now db))).
  { intros i data now db Hnow Hdb.
    destruct (update_table i data now db) as [->|(k & _ & ->)]; [exact Hdb|].
    unfold datedTable, patchRows. cbn [solicitacoes]. apply Forall_map.
    apply Forall_forall. intros r Hr.
    pose proof (proj1 (Forall_forall _ _) Hnow r Hr) as L. cbv beta in L.
    pose proof (proj1 (Forall_forall _ _) Hdb r Hr) as D. cbv beta in D.
    destruct (id r =? k); [exact L | exact D]. }
  split; [|split; [|split]].
  - intros production body now db Hdb.
    destruct (create_handler_table production body now db) as [->|[_ ->]];
      [exact Hdb|].
    destruct (create_table (normalizeBody (sanitizeBody body)) now db)
      as [->|[->|(_ & _ & ->)]]; try exact Hdb.
    unfold datedTable. cbn [solicitacoes]. apply Forall_app. split; [exact Hdb|].
    constructor; [cbn; lia | constructor].
  - intros production others idParam body now db Ho Hnow Hdb.
    destruct (update_handler_table production others idParam body now db)
      as [->|(_ & ->)]; [exact Hdb|]. apply Hupd; [exact Hnow | now apply Ho].
  - intros production others idParam statusArg now db Ho Hnow Hdb.
    destruct (updateStatus_handler_table production others idParam statusArg now db)
      as [->|(_ & _ & ->)]; [exact Hdb|]. apply Hupd; [exact Hnow | now apply Ho].
  - intros production others idParam now db Ho Hdb.
    destruct (delete_handler_table production others idParam now db) as [-> | ->];
      [exact Hdb|].
    destruct (delete_table (parseInt idParam) now (others db)) as [->|(i & _ & ->)];
      [now apply Ho|].
    apply filter_Forall. now apply Ho.
Qed.

Lemma updated_not_before_created_witness :
  datedTable
    (snd (SolicitacaoController.updateStatus false (fun d => d) (lit "1")
            (Some (lit "Comprado")) 12 tableOne)).
Proof.
  destruct updated_not_before_created as (_ & _ & Hs & _).
  apply Hs.
  - intros d H; exact H.
  - constructor; [simpl; lia | constructor].
  - constructor; [simpl; lia | constructor].
Defined.

(** ** Ids as text: [isNaN], [parseInt] and the decimal form of a number *)



















(** ** A created row can be fetched *)











(** ** What an update writes *)

Lemma fitsData_field data c v :
  fitsData data = true -> In c SolicitacaoModel.allowedFields ->
  getField data c = Some v -> fits c v = true.
Proof.
  unfold fitsData. intros F Hc Hv.
  pose proof (proj1 (forallb_forall _ _) F c Hc) as H. cbv beta in H.
  now rewrite Hv in H.
Qed.

Lemma update_query_none idArg data now :
  SolicitacaoModel.update_query idArg data now = None <-> noFields data = true.
Proof.
  unfold SolicitacaoModel.update_query, noFields.
  destruct data as [[n|] [s|] [c|] [e|] [stt|] dt]; cbn; split; intro H;
    (reflexivity || discriminate).
Qed.

Lemma update_query_apply idArg data now st params :
  SolicitacaoModel.update_query idArg data now = Some (st, params) ->
  fitsData data = true ->
  exists updateFields idIndex,
    st = UpdateSet updateFields idIndex /\
    getParam params idIndex = Some (numParam idArg) /\
    forall r, applySets params updateFields r = inr (patch data now r).
Proof.
  intros H F.
  pose proof (fun v => fitsData_field data c_nome_pessoa v F ltac:(simpl; tauto)) as Fn.
  pose proof (fun v => fitsData_field data c_setor v F ltac:(simpl; tauto)) as Fs.
  pose proof (fun v => fitsData_field data c_centro_custo v F ltac:(simpl; tauto)) as Fc.
  pose proof (fun v => fitsData_field data c_status v F ltac:(simpl; tauto)) as Ft.
  clear F. revert H. unfold SolicitacaoModel.update_query.
  destruct data as [[n|] [s|] [c|] [e|] [stt|] dt];
    cbn [getField d_nome_pessoa d_setor d_centro_custo d_equipamento d_status]
      in Fn, Fs, Fc, Ft; simpl;
    intro H; try discriminate; injection H as <- <-;
    try specialize (Fn _ eq_refl); try specialize (Fs _ eq_refl);
    try specialize (Fc _ eq_refl); try specialize (Ft _ eq_refl);
    eexists; eexists; (split; [reflexivity|]); (split; [reflexivity|]);
    intro r; cbn [applySets getParam nth_error setCol fitsParam];
    rewrite ?Fn, ?Fs, ?Fc, ?Ft; reflexivity.
Qed.

Lemma updateRows_total params updateFields target (F : Row -> Row) l :
  (forall r, applySets params updateFields r = inr (F r)) ->
  updateRows params updateFields target l =
  inr (map (fun r => if id r =? target then F r else r) l,
       len (filter (fun r => id r =? target) l)).
Proof.
  intro HF. induction l as [|r t IH]; [reflexivity|].
  cbn [updateRows]. rewrite IH. cbn [map filter].
  destruct (id r =? target); [|reflexivity]. rewrite HF, len_cons. reflexivity.
Qed.

(** [update] of a row that is there, with at least one field and values
    that fit: every row with the id is patched. *)
Lemma update_succeeds i data now db :
  noFields data = false -> fitsData data = true -> hasId i db = true ->
  SolicitacaoModel.update (Some i) data now db =
  (Ok true, mkDB (patchRows data now i (solicitacoes db)) (id_seq db)).
Proof.
  intros Hf Hfit Hi. unfold SolicitacaoModel.update.
  destruct (SolicitacaoModel.update_query (Some i) data now) as [[st params]|] eqn:Eq.
  - destruct (update_query_apply _ _ _ _ _ Eq Hfit)
      as (updateFields & idIndex & -> & Hid & HF).
    unfold query. rewrite Hid. cbn [numParam].
    rewrite (updateRows_total params updateFields i (patch data now) _ HF).
    cbn [rowCount]. rewrite len_filter_pos. unfold hasId in Hi. rewrite Hi.
    reflexivity.
  - apply update_query_none in Eq. congruence.
Qed.

Lemma fits_empty_status : fits c_status [] = true.
Proof. reflexivity. Qed.


Lemma present_normalizeIf v :
  SolicitacaoModel.present (normalizeIf (option_map sanitizeInput v)) =
  SolicitacaoModel.present v.
Proof.
  destruct v as [s|]; [|reflexivity]. unfold normalizeIf. cbn [option_map].
  now destruct (truthy (Some (sanitizeInput s))).
Qed.

Lemma noFields_controller body :
  noFields (normalizeBody (sanitizeBody body)) = noFields body.
Proof.
  unfold noFields, normalizeBody, sanitizeBody.
  cbn [d_nome_pessoa d_setor d_centro_custo d_equipamento d_status].
  rewrite !present_normalizeIf. now destruct (d_status body).
Qed.

Lemma getById_hasId i now db :
  hasId i db = true -> exists r, SolicitacaoModel.getById (Some i) now db = (Ok (Some r), db).
Proof.
  intro H. apply getById_present. unfold hasId in H.
  apply existsb_exists in H as (r & Hr & E). apply Z.eqb_eq in E. now exists r.
Qed.

Lemma getById_no_row i now db :
  hasId i db = false -> SolicitacaoModel.getById (Some i) now db = (Ok None, db).
Proof.
  intro H. rewrite getById_found.
  replace (filter (fun r => id r =? i) (solicitacoes db)) with (@nil Row); [reflexivity|].
  symmetry. unfold hasId in H.
  destruct (filter (fun r => id r =? i) (solicitacoes db)) as [|x t] eqn:E;
    [reflexivity|].
  assert (Hx : In x (filter (fun r => id r =? i) (solicitacoes db)))
    by (rewrite E; now left).
  apply filter_In in Hx as [Hx Hi].
  assert (Ht : existsb (fun r => id r =? i) (solicitacoes db) = true)
    by (apply existsb_exists; now exists x).
  congruence.
Qed.



(** ** Updates that are refused *)

Lemma noFields_valid data :
  noFields data = true -> SolicitacaoModel.validateData data true = [].
Proof.
  unfold noFields.
  destruct data as [[n|] [s|] [c|] [e|] [stt|] dt]; cbn; intro H;
    (discriminate || reflexivity).
Qed.

Lemma blank_sanitised s :
  trim (sanitizeInput s) = [] -> blank (normalizeIf (Some (sanitizeInput s))) = true.
Proof.
  intro H. unfold normalizeIf.
  destruct (truthy (Some (sanitizeInput s))) eqn:T; cbn [option_map].
  - unfold normalizeString. rewrite H. reflexivity.
  - cbn [blank]. now rewrite T.
Qed.

Lemma blankErrors_field data f v :
  In f required -> getField data f = Some v -> blank (Some v) = true ->
  blankErrors data <> [].
Proof.
  intros Hf Hv Hb E. pose proof (blankErrors_nil data E f v Hf Hv). congruence.
Qed.

(** X15.  PUT /solicitacoes/:id on a row that is there refuses two kinds
    of body.  A body without any of the five fields passes validation and
    makes the repository throw: the answer is 500, not 400.  A body in
    which one of the four required fields is present but empty once
    sanitised and trimmed is answered 400 with a non-empty list of
    messages.  In both cases this request writes nothing. *)
Theorem update_refusals :
  forall production others idParam body now db i,
    nonEmpty idParam = true -> isNaN idParam = false -> parseInt idParam = Some i ->
    hasId i db = true ->
    (noFields body = true ->
       SolicitacaoController.update production others idParam body now db =
         (mkResponse 500
            (createErrorResponse
               (if production then lit "Erro interno do servidor"
                else lit "Erro ao atualizar solicitação: " ++
                     lit "Nenhum campo para atualizar foi fornecido") 500 [] now),
          others db)) /\
    (forall f s,
       In f required -> getField body f = Some s -> trim (sanitizeInput s) = [] ->
       exists errors,
         errors <> [] /\
         SolicitacaoController.update production others idParam body now db =
           (SolicitacaoController.invalid errors now, db)).
Proof.
  intros production others idParam body now db i Hne Hnum Hparse Hi.
  destruct (getById_hasId i now db Hi) as (r & Hr).
  split.
  - intro Hf.
    assert (Hd : noFields (normalizeBody (sanitizeBody body)) = true)
      by now rewrite noFields_controller.
    unfold SolicitacaoController.update, asyncHandler, SolicitacaoController.update_fn.
    rewrite Hne, Hnum, Hparse. cbn [negb orb]. unfold bind, interleave, ret.
    rewrite Hr. cbv zeta. rewrite (noFields_valid _ Hd). cbn [nonEmpty].
    unfold SolicitacaoModel.update.
    rewrite (proj2 (update_query_none (Some i) _ now) Hd).
    now rewrite errorHandler_Error.
  - intros f s Hf Hs Hblank.
    exists (SolicitacaoModel.validateData (normalizeBody (sanitizeBody body)) true).
    assert (Hne' : SolicitacaoModel.validateData (normalizeBody (sanitizeBody body)) true
                   <> []).
    { rewrite validateData_update. intro E. apply app_nil_both in E as [E _].
      revert E.
      apply (blankErrors_field _ f (orEmpty (normalizeIf (Some (sanitizeInput s)))) Hf).
      - rewrite getField_controller by exact Hf. rewrite Hs. cbn [option_map].
        unfold normalizeIf. now destruct (truthy (Some (sanitizeInput s))).
      - pose proof (blank_sanitised s Hblank) as B. revert B. unfold normalizeIf.
        now destruct (truthy (Some (sanitizeInput s))). }
    split; [exact Hne'|].
    unfold SolicitacaoController.update, asyncHandler, SolicitacaoController.update_fn.
    rewrite Hne, Hnum, Hparse. cbn [negb orb]. unfold bind, interleave, ret.
    rewrite Hr. cbv zeta.
    destruct (SolicitacaoModel.validateData (normalizeBody (sanitizeBody body)) true);
      [contradiction | reflexivity].
Qed.

Lemma update_refusals_witness :
  httpStatus
    (fst (SolicitacaoController.update false (fun d => d) (lit "1")
            (mkData None None None None None (Some 20)) 12 tableOne)) = 500 /\
  httpStatus
    (fst (SolicitacaoController.update false (fun d => d) (lit "1")
            (mkData None (Some (lit " <> ")) None None None None) 12 tableOne)) = 400.
Proof.
  split.
  - pose proof (proj1 (update_refusals false (fun d => d) (lit "1")
                         (mkData None None None None None (Some 20)) 12 tableOne 1
                         eq_refl eq_refl eq_refl eq_refl) eq_refl) as H.
    exact (f_equal (fun x => httpStatus (fst x)) H).
  - destruct (proj2 (update_refusals false (fun d => d) (lit "1")
                       (mkData None (Some (lit " <> ")) None None None None) 12
                       tableOne 1 eq_refl eq_refl eq_refl eq_refl)
                c_setor (lit " <> ") ltac:(simpl; tauto) eq_refl eq_refl)
      as (errors & _ & H).
    exact (f_equal (fun x => httpStatus (fst x)) H).
Defined.

(** ** Deleting a row *)

Lemma hasId_filtered i db :
  hasId i (mkDB (filter (fun r => negb (id r =? i)) (solicitacoes db)) (id_seq db))
  = false.
Proof.
  unfold hasId. cbn [solicitacoes]. apply not_true_is_false. intro H.
  apply existsb_exists in H as (r & Hr & E). apply filter_In in Hr as [_ Hr].
  rewrite E in Hr. discriminate.
Qed.

Lemma delete_succeeds i now db :
  hasId i db = true ->
  SolicitacaoModel.delete (Some i) now db =
  (Ok true, mkDB (filter (fun r => negb (id r =? i)) (solicitacoes db)) (id_seq db)).
Proof.
  intro H. unfold SolicitacaoModel.delete, query. cbn [numParam rowCount].
  replace (0 <? len (solicitacoes db)
                - len (filter (fun r => negb (id r =? i)) (solicitacoes db))) with true;
    [reflexivity|].
  symmetry. apply Z.ltb_lt. unfold hasId in H.
  induction (solicitacoes db) as [|r t IH]; [discriminate|].
  cbn [existsb filter] in *. rewrite !len_cons.
  assert (L : len (filter (fun r => negb (id r =? i)) t) <= len t).
  { unfold len. apply Nat2Z.inj_le. apply filter_length_le. }
  destruct (id r =? i); cbn [negb orb] in *.
  - lia.
  - rewrite len_cons. specialize (IH H). lia.
Qed.

(** X16.  DELETE /solicitacoes/:id on a row that is there answers 200 and
    removes every row with that id and nothing else; the sequence of ids
    does not move back.  From then on the same id is answered 404 by
    GET, PUT, PATCH and DELETE alike, which write nothing. *)
Theorem delete_removes_the_row :
  forall production others idParam now db i,
    nonEmpty idParam = true -> isNaN idParam = false -> parseInt idParam = Some i ->
    hasId i db = true -> hasId i (others db) = true ->
    let after :=
      mkDB (filter (fun r => negb (id r =? i)) (solicitacoes (others db)))
        (id_seq (others db)) in
    SolicitacaoController.delete production others idParam now db =
      (mkResponse 200
         (createSuccessResponse NullData
            (Some (lit "Solicitação excluída com sucesso")) now), after) /\
    (forall r, In r (solicitacoes after) <-> In r (solicitacoes (others db)) /\ id r <> i) /\
    (forall later,
       SolicitacaoController.getById production idParam later after =
         (SolicitacaoController.notFound later, after)) /\
    (forall later others' body,
       SolicitacaoController.update production others' idParam body later after =
         (SolicitacaoController.notFound later, after)) /\
    (forall later others' statusArg,
       truthy statusArg = true ->
       SolicitacaoController.updateStatus production others' idParam statusArg later after =
         (SolicitacaoController.notFound later, after)) /\
    (forall later others',
       SolicitacaoController.delete production others' idParam later after =
         (SolicitacaoController.notFound later, after)).
Proof.
  intros production others idParam now db i Hne Hnum Hparse Hi Ho after.
  pose proof (hasId_filtered i (others db)) as Hgone. fold after in Hgone.
  split; [|split; [|split; [|split; [|split]]]].
  - unfold SolicitacaoController.delete, asyncHandler, SolicitacaoController.delete_fn.
    rewrite Hne, Hnum, Hparse. cbn [negb orb]. unfold bind, interleave, ret.
    destruct (getById_hasId i now db Hi) as (r & ->).
    now rewrite (delete_succeeds i now (others db) Ho).
  - intro r. unfold after. cbn [solicitacoes]. rewrite filter_In.
    rewrite negb_true_iff, Z.eqb_neq. reflexivity.
  - intro later.
    unfold SolicitacaoController.getById, asyncHandler, SolicitacaoController.getById_fn.
    rewrite Hne, Hnum, Hparse. cbn [negb orb]. unfold bind, ret.
    now rewrite (getById_no_row i later after Hgone).
  - intros later others' body.
    unfold SolicitacaoController.update, asyncHandler, SolicitacaoController.update_fn.
    rewrite Hne, Hnum, Hparse. cbn [negb orb]. unfold bind, ret.
    now rewrite (getById_no_row i later after Hgone).
  - intros later others' statusArg Ht.
    unfold SolicitacaoController.updateStatus, asyncHandler,
      SolicitacaoController.updateStatus_fn.
    rewrite Hne, Hnum, Hparse, Ht. cbn [negb orb]. unfold bind, ret.
    now rewrite (getById_no_row i later after Hgone).
  - intros later others'.
    unfold SolicitacaoController.delete, asyncHandler, SolicitacaoController.delete_fn.
    rewrite Hne, Hnum, Hparse. cbn [negb orb]. unfold bind, ret.
    now rewrite (getById_no_row i later after Hgone).
Qed.

Lemma delete_removes_the_row_witness :
  SolicitacaoController.delete false (fun d => d) (lit "1") 12 tableOne =
    (mkResponse 200
       (createSuccessResponse NullData (Some (lit "Solicitação excluída com sucesso"))
          12), mkDB [] 1) /\
  fst (SolicitacaoController.getById false (lit "1") 13 (mkDB [] 1)) =
    SolicitacaoController.notFound 13.
Proof.
  destruct (delete_removes_the_row false (fun d => d) (lit "1") 12 tableOne 1
              eq_refl eq_refl eq_refl eq_refl eq_refl) as (H1 & _ & H2 & _).
  split; [exact H1 | exact (f_equal fst (H2 13))].
Defined.

(** ** The status update *)

Lemma patch_onlyStatus s now r : patch (onlyStatus (Some s)) now r = withStatus s now r.
Proof. reflexivity. Qed.



(** ** The status codes the handlers can answer *)

Lemma plain_Error msg : plain (Error msg).
Proof. split; reflexivity. Qed.

Lemma throwsPlain_getById i now : throwsPlain (SolicitacaoModel.getById i now).
Proof.
  intro db. unfold SolicitacaoModel.getById.
  destruct (query SelectById [numParam i] now db) as [[e|r] db']; simpl;
    [apply plain_Error | exact I].
Qed.

Lemma throwsPlain_getAll f o l off now :
  throwsPlain (SolicitacaoModel.getAll f o l off now).
Proof.
  intro db. unfold SolicitacaoModel.getAll.
  destruct (SolicitacaoModel.getAll_query f o l off) as [sql params].
  destruct (query sql params now db) as [[e|r] db']; simpl;
    [apply plain_Error | exact I].
Qed.

Lemma throwsPlain_count f now : throwsPlain (SolicitacaoModel.count f now).
Proof.
  intro db. unfold SolicitacaoModel.count.
  destruct (SolicitacaoModel.count_query f) as [sql params].
  destruct (query sql params now db) as [[e|r] db']; simpl; [apply plain_Error|].
  destruct (rows r) as [l|l|[|t l]|l|]; simpl; try apply plain_Error. exact I.
Qed.

Lemma throwsPlain_create data now : throwsPlain (SolicitacaoModel.create data now).
Proof.
  intro db. unfold SolicitacaoModel.create.
  destruct (find _ required); [apply plain_Error|]. cbv zeta.
  destruct (query InsertReturningId _ now db) as [[e|r] db']; simpl;
    [apply plain_Error|].
  destruct (rows r) as [l|[|i l]|l|l|]; simpl; try apply plain_Error. exact I.
Qed.

Lemma throwsPlain_update i data now : throwsPlain (SolicitacaoModel.update i data now).
Proof.
  intro db. unfold SolicitacaoModel.update.
  destruct (SolicitacaoModel.update_query i data now) as [[sql params]|];
    [|apply plain_Error].
  destruct (query sql params now db) as [[e|r] db']; simpl; [apply plain_Error|].
  destruct (0 <? rowCount r); simpl; [exact I | apply plain_Error].
Qed.

Lemma throwsPlain_delete i now : throwsPlain (SolicitacaoModel.delete i now).
Proof.
  intro db. unfold SolicitacaoModel.delete.
  destruct (query DeleteById [numParam i] now db) as [[e|r] db']; simpl;
    [apply plain_Error|].
  destruct (0 <? rowCount r); simpl; [exact I | apply plain_Error].
Qed.

Lemma throwsPlain_getStats now : throwsPlain (SolicitacaoModel.getStats now).
Proof.
  intro db. unfold SolicitacaoModel.getStats.
  destruct (query StatsByStatus [] now db) as [[e|r] db']; simpl;
    [apply plain_Error | exact I].
Qed.

Lemma throwsPlain_interleave others : throwsPlain (interleave others).
Proof. intro db. exact I. Qed.

Lemma answers_ret codes r : In (httpStatus r) codes -> answers codes (ret r).
Proof. intros H db. exact H. Qed.

Lemma answers_bind {A : Type} codes (m : M A) (k : A -> M Response) :
  throwsPlain m -> (forall a, answers codes (k a)) -> answers codes (bind m k).
Proof.
  intros Hm Hk db. unfold bind. specialize (Hm db).
  destruct (m db) as [[a|e] db']; simpl in *; [apply Hk | exact Hm].
Qed.

Lemma asyncHandler_status production now fn codes db :
  answers codes fn ->
  In (httpStatus (fst (asyncHandler production now fn db))) (500 :: codes).
Proof.
  intro H. specialize (H db). unfold asyncHandler.
  destruct (fn db) as [[r|e] db']; simpl in H |- *.
  - now right.
  - left. destruct H as [Hc Hs]. unfold errorHandler, codeIs. rewrite Hc, Hs.
    reflexivity.
Qed.

Create HintDb plain.

#[local] Hint Resolve throwsPlain_getById throwsPlain_getAll throwsPlain_count
  throwsPlain_create throwsPlain_update throwsPlain_delete throwsPlain_getStats
  throwsPlain_interleave : plain.

Ltac status_code := apply answers_ret; simpl; tauto.

(** X18.  Whatever the request and the table, the handlers answer with
    one of five status codes: 200 (201 for a creation), 400, 404, or 500.
    The repository wraps every error of the store in a new error without
    code, so the 409 and 503 answers of the error middleware are never
    given for these handlers. *)
Theorem handlers_status_codes :
  forall production now db,
    (forall idParam,
       In (httpStatus (fst (SolicitacaoController.getById production idParam now db)))
         [500; 200; 400; 404]) /\
    (forall q,
       In (httpStatus (fst (SolicitacaoController.getAll production q now db)))
         [500; 200]) /\
    (forall body,
       In (httpStatus (fst (SolicitacaoController.create production body now db)))
         [500; 201; 400]) /\
    (forall others idParam body,
       In (httpStatus
             (fst (SolicitacaoController.update production others idParam body now db)))
         [500; 200; 400; 404]) /\
    (forall others idParam statusArg,
       In (httpStatus
             (fst (SolicitacaoController.updateStatus production others idParam
                     statusArg now db)))
         [500; 200; 400; 404]) /\
    (forall others idParam,
       In (httpStatus
             (fst (SolicitacaoController.delete production others idParam now db)))
         [500; 200; 400; 404]) /\
    In (httpStatus (fst (SolicitacaoController.getStats production now db))) [500; 200].
Proof.
  intros production now db.
  split; [|split; [|split; [|split; [|split; [|split]]]]].
  - intro idParam. apply asyncHandler_status.
    unfold SolicitacaoController.getById_fn.
    destruct (negb (nonEmpty idParam) || isNaN idParam); [status_code|].
    apply answers_bind; [auto with plain|]. intros [r|]; status_code.
  - intro q. apply asyncHandler_status. unfold SolicitacaoController.getAll_fn.
    cbv zeta. apply answers_bind; [auto with plain|]. intro l.
    apply answers_bind; [auto with plain|]. intro n. status_code.
  - intro body. apply asyncHandler_status. unfold SolicitacaoController.create_fn.
    cbv zeta. destruct (nonEmpty _); [status_code|].
    apply answers_bind; [auto with plain|]. intro i. status_code.
  - intros others idParam body. apply asyncHandler_status.
    unfold SolicitacaoController.update_fn.
    destruct (negb (nonEmpty idParam) || isNaN idParam); [status_code|].
    apply answers_bind; [auto with plain|]. intros [r|]; [|status_code].
    cbv zeta. destruct (nonEmpty _); [status_code|].
    apply answers_bind; [auto with plain|]. intros _.
    apply answers_bind; [auto with plain|]. intros _. status_code.
  - intros others idParam statusArg. apply asyncHandler_status.
    unfold SolicitacaoController.updateStatus_fn.
    destruct (negb (nonEmpty idParam) || isNaN idParam); [status_code|].
    destruct (negb (truthy statusArg)); [status_code|].
    apply answers_bind; [auto with plain|]. intros [r|]; [|status_code].
    destruct (negb _); [status_code|].
    apply answers_bind; [auto with plain|]. intros _.
    apply answers_bind; [unfold SolicitacaoModel.updateStatus; auto with plain|].
    intros _. status_code.
  - intros others idParam. apply asyncHandler_status.
    unfold SolicitacaoController.delete_fn.
    destruct (negb (nonEmpty idParam) || isNaN idParam); [status_code|].
    apply answers_bind; [auto with plain|]. intros [r|]; [|status_code].
    apply answers_bind; [auto with plain|]. intros _.
    apply answers_bind; [auto with plain|]. intros _. status_code.
  - apply asyncHandler_status. unfold SolicitacaoController.getStats_fn.
    apply answers_bind; [auto with plain|]. intro stats. status_code.
Qed.

(** ** Walking through the pages *)






(** ** The trimming middleware *)

Lemma sanitizeInput_trim s : sanitizeInput (trim s) = sanitizeInput s.
Proof. unfold sanitizeInput. now rewrite trim_idem. Qed.

Lemma sanitizeBody_trimBody body : sanitizeBody (trimBody body) = sanitizeBody body.
Proof.
  unfold sanitizeBody, trimBody.
  cbn [d_nome_pessoa d_setor d_centro_custo d_equipamento d_status d_data_solicitacao].
  f_equal;
    match goal with
    | |- option_map _ (option_map _ ?v) = _ =>
        destruct v; [cbn [option_map]; now rewrite sanitizeInput_trim | reflexivity]
    end.
Qed.

Lemma validStatus_trimmed s : validStatus s = true -> trim s = s.
Proof.
  unfold validStatus, SolicitacaoModel.includes, SolicitacaoModel.statusValidos.
  cbn [existsb]. intro H.
  repeat (apply orb_prop in H as [H|H]; [apply str_eqb_eq in H; now subst|]).
  discriminate.
Qed.

Lemma updateStatus_invalid production others idParam s now db i :
  nonEmpty idParam = true -> isNaN idParam = false -> parseInt idParam = Some i ->
  hasId i db = true -> truthy (Some s) = true -> validStatus s = false ->
  SolicitacaoController.updateStatus production others idParam (Some s) now db =
    (mkResponse 400
       (createErrorResponse (lit "Status inválido") 400
          [(lit "valid_status", SolicitacaoModel.statusValidos)] now), db).
Proof.
  intros Hne Hnum Hparse Hi Ht Hv.
  unfold SolicitacaoController.updateStatus, asyncHandler,
    SolicitacaoController.updateStatus_fn.
  rewrite Hne, Hnum, Hparse, Ht. cbn [negb orb]. unfold bind, interleave, ret.
  destruct (getById_hasId i now db Hi) as (r & ->).
  cbn [orEmpty]. fold (validStatus s). now rewrite Hv.
Qed.

Lemma updateStatus_valid production others idParam s now db i :
  nonEmpty idParam = true -> isNaN idParam = false -> parseInt idParam = Some i ->
  hasId i db = true -> hasId i (others db) = true -> validStatus s = true ->
  SolicitacaoController.updateStatus production others idParam (Some s) now db =
    (mkResponse 200
       (createSuccessResponse NullData (Some (lit "Status atualizado com sucesso")) now),
     mkDB (map (fun r => if id r =? i then withStatus s now r else r)
             (solicitacoes (others db)))
       (id_seq (others db))).
Proof.
  intros Hne Hnum Hparse Hi Ho Hv.
  assert (Ht : truthy (Some s) = true).
  { destruct s; [discriminate Hv | reflexivity]. }
  unfold SolicitacaoController.updateStatus, asyncHandler,
    SolicitacaoController.updateStatus_fn.
  rewrite Hne, Hnum, Hparse, Ht. cbn [negb orb]. unfold bind, interleave, ret.
  destruct (getById_hasId i now db Hi) as (r & ->).
  cbn [orEmpty]. fold (validStatus s). rewrite Hv. cbn [negb].
  unfold SolicitacaoModel.updateStatus.
  rewrite (update_succeeds i (mkData None None None None (Some s) None) now
             (others db)); [reflexivity | reflexivity | | exact Ho].
  unfold fitsData. cbn [forallb SolicitacaoModel.allowedFields getField d_status
                          d_nome_pessoa d_setor d_centro_custo d_equipamento].
  now rewrite (valid_status_fits s Hv).
Qed.

(** X20.  The trimming middleware mounted before the routes changes
    nothing for a creation or an update: the handlers trim the texts of
    the body themselves, so the answer and the table are the same with
    and without it.  The status update reads the status as it comes: a
    valid status with white space around it is refused with 400 without
    the middleware, and accepted with it. *)
Theorem trimming_middleware :
  (forall production body now db,
     SolicitacaoController.create production (trimBody body) now db =
     SolicitacaoController.create production body now db) /\
  (forall production others idParam body now db,
     SolicitacaoController.update production others idParam (trimBody body) now db =
     SolicitacaoController.update production others idParam body now db) /\
  (forall production others idParam s now db i,
     nonEmpty idParam = true -> isNaN idParam = false -> parseInt idParam = Some i ->
     hasId i db = true -> hasId i (others db) = true ->
     validStatus (trim s) = true -> trim s <> s ->
     httpStatus
       (fst (SolicitacaoController.updateStatus production others idParam (Some s)
               now db)) = 400 /\
     httpStatus
       (fst (SolicitacaoController.updateStatus production others idParam
               (Some (trim s)) now db)) = 200).
Proof.
  split; [|split].
  - intros production body now db.
    unfold SolicitacaoController.create, SolicitacaoController.create_fn.
    now rewrite sanitizeBody_trimBody.
  - intros production others idParam body now db.
    unfold SolicitacaoController.update, SolicitacaoController.update_fn.
    now rewrite sanitizeBody_trimBody.
  - intros production others idParam s now db i Hne Hnum Hparse Hi Ho Hv Hs.
    assert (Hbad : validStatus s = false).
    { destruct (validStatus s) eqn:E; [|reflexivity].
      apply validStatus_trimmed in E. contradiction. }
    assert (Ht : truthy (Some s) = true).
    { destruct s; [now contradiction Hs | reflexivity]. }
    split.
    + now rewrite (updateStatus_invalid production others idParam s now db i).
    + now rewrite (updateStatus_valid production others idParam (trim s) now db i).
Qed.

Lemma trimming_middleware_witness :
  httpStatus
    (fst (SolicitacaoController.updateStatus false (fun d => d) (lit "1")
            (Some (lit " Comprado ")) 12 tableOne)) = 400 /\
  httpStatus
    (fst (SolicitacaoController.updateStatus false (fun d => d) (lit "1")
            (Some (trim (lit " Comprado "))) 12 tableOne)) = 200.
Proof.
  destruct trimming_middleware as (_ & _ & H).
  apply (H false (fun d => d) (lit "1") (lit " Comprado ") 12 tableOne 1);
    try reflexivity.
  discriminate.
Defined.

(** ** A search text is a pattern *)

Lemma like_percents p s :
  p <> [] -> Forall (fun c => c = "%"%char) p -> like p s = true.
Proof.
  intros Hne H. induction H as [|c p -> Hp IH]; [contradiction|].
  destruct p as [|d p]; [apply like_any|].
  apply like_star. exists [], s. split; [reflexivity|]. apply IH. discriminate.
Qed.

Lemma percents_lower p :
  Forall (fun c => c = "%"%char) p -> toLowerCase p = p.
Proof.
  induction 1 as [|c p -> Hp IH]; [reflexivity|].
  unfold toLowerCase in *. cbn [map]. now rewrite IH.
Qed.

Lemma trim_plain s : Forall (fun c => isWhiteSpace c = false) s -> trim s = s.
Proof.
  intro H. unfold trim, trimEnd.
  assert (Hs : forall u, Forall (fun c => isWhiteSpace c = false) u -> trimStart u = u).
  { intros u Hu. destruct Hu as [|c u Hc Hu]; [reflexivity|].
    cbn [trimStart]. now rewrite Hc. }
  rewrite (Hs s H), Hs; [apply rev_involutive|].
  apply Forall_forall. intros x Hx. apply in_rev in Hx.
  revert x Hx. now apply Forall_forall.
Qed.

Lemma sanitizeInput_percents p :
  Forall (fun c => c = "%"%char) p -> sanitizeInput p = p.
Proof.
  intro H. unfold sanitizeInput. rewrite trim_plain.
  - unfold stripAngle. induction H as [|c p -> Hp IH]; [reflexivity|].
    cbn [filter]. change (negb (isAngle "%")) with true. cbv iota. now rewrite IH.
  - revert H. apply Forall_impl. now intros c ->.
Qed.

(** X21.  The search text goes into the pattern as it is, so its wild
    cards work as wild cards: a search made of percent signs only lists
    every row of the table, whatever the rows hold. *)
Theorem percent_search_lists_everything :
  forall production s now db,
    s <> [] -> Forall (fun c => c = "%"%char) s ->
    let answer :=
      fst (SolicitacaoController.getAll production
             (mkListQuery (Some s) None None None None None) now db) in
    httpStatus answer = 200 /\
    totalItemsOf answer = len (solicitacoes db) /\
    itemsOf answer =
      firstn 10 (sortBy (fun a b : Row =>
                           valueLeb (getCol c_data_solicitacao b)
                             (getCol c_data_solicitacao a)) (solicitacoes db)).
Proof.
  intros production s now db Hne Hs answer. unfold answer. clear answer.
  rewrite (getAll_handler production (mkListQuery (Some s) None None None None None)
             now db _ default_order). cbv zeta.
  assert (F : filter
                (matchesFilters
                   (SolicitacaoController.filtersOf
                      (mkListQuery (Some s) None None None None None)))
                (solicitacoes db) = solicitacoes db).
  { apply filter_all. apply Forall_forall. intros r _.
    unfold SolicitacaoController.filtersOf, matchesFilters.
    cbn [q_search q_status q_setor orEmpty nonEmpty f_status f_setor f_search truthy].
    destruct s as [|c t]; [contradiction|]. cbn [nonEmpty f_search].
    rewrite (sanitizeInput_percents _ Hs). cbn [truthy orEmpty andb].
    unfold ilike. rewrite percents_lower.
    - rewrite like_percents; [reflexivity | discriminate|].
      constructor; [reflexivity|]. apply Forall_app. split; [exact Hs|].
      constructor; [reflexivity | constructor].
    - constructor; [reflexivity|]. apply Forall_app. split; [exact Hs|].
      constructor; [reflexivity | constructor]. }
  rewrite F. unfold itemsOf, totalItemsOf. cbn [fst json httpStatus total_items].
  repeat split.
Qed.

Lemma percent_search_lists_everything_witness :
  totalItemsOf
    (fst (SolicitacaoController.getAll false
            (mkListQuery (Some (lit "%")) None None None None None) 12 tableOne)) = 1.
Proof.
  destruct (percent_search_lists_everything false (lit "%") 12 tableOne) as (_ & H & _).
  - discriminate.
  - constructor; [reflexivity | constructor].
  - exact H.
Defined.

(** ** [isValidEmail] *)






(** ** [generateSelectOptions] *)

Lemma occurrences_app c a b :
  occurrences c (a ++ b) = (occurrences c a + occurrences c b)%nat.
Proof. unfold occurrences. now rewrite filter_app, length_app. Qed.

Lemma occurrences_none c s : Forall (fun d => d <> c) s -> occurrences c s = 0%nat.
Proof.
  unfold occurrences. induction 1 as [|d s Hd Hs IH]; [reflexivity|].
  cbn [filter]. destruct (Ascii.eqb c d) eqn:E; [|exact IH].
  apply Ascii.eqb_eq in E. now subst.
Qed.

Lemma escapeHtml_safe text :
  Forall (fun d => d <> "<"%char /\ d <> ">"%char /\ d <> quoteChar /\ d <> "'"%char)
    (escapeHtml text).
Proof.
  induction text as [|c t IH]; simpl; [constructor|].
  apply Forall_app. split; [apply escapeChar_safe | exact IH].
Qed.

Lemma escapeHtml_occurrences text :
  occurrences "<" (escapeHtml text) = 0%nat /\
  occurrences ">" (escapeHtml text) = 0%nat /\
  occurrences quoteChar (escapeHtml text) = 0%nat.
Proof.
  pose proof (escapeHtml_safe text) as H.
  split; [|split]; apply occurrences_none; revert H; apply Forall_impl; tauto.
Qed.

(** X23.  Whatever the values and the labels, the markup of
    [generateSelectOptions] holds two opening angle brackets, two closing
    ones and two double quotes for each entry, those of the template:
    no value and no label can open or close a tag, or end the attribute
    it is written in. *)
Theorem generateSelectOptions_markup :
  forall options selected,
    let html := generateSelectOptions options selected in
    occurrences "<" html = (2 * List.length options)%nat /\
    occurrences ">" html = (2 * List.length options)%nat /\
    occurrences quoteChar html = (2 * List.length options)%nat.
Proof.
  intros options selected html. unfold html, generateSelectOptions. clear html.
  assert (One : forall entry,
             occurrences "<" (optionHtml selected entry) = 2%nat /\
             occurrences ">" (optionHtml selected entry) = 2%nat /\
             occurrences quoteChar (optionHtml selected entry) = 2%nat).
  { intro entry. unfold optionHtml. cbv zeta.
    destruct (escapeHtml_occurrences (fst entry)) as (V1 & V2 & V3).
    destruct (escapeHtml_occurrences (snd entry)) as (L1 & L2 & L3).
    assert (S : forall c, c = "<"%char \/ c = ">"%char \/ c = quoteChar ->
                occurrences c
                  (match selected with
                   | Some s => if str_eqb (fst entry) s then lit "selected" else []
                   | None => []
                   end) = 0%nat).
    { intros c Hc. destruct selected as [s|]; [|reflexivity].
      destruct (str_eqb (fst entry) s); [|reflexivity].
      destruct Hc as [->|[->| ->]]; reflexivity. }
    rewrite !occurrences_app, V1, V2, V3, L1, L2, L3.
    rewrite (S "<"%char), (S ">"%char), (S quoteChar) by tauto.
    repeat split; reflexivity. }
  induction options as [|entry rest IH]; [repeat split; reflexivity|].
  cbn [flat_map List.length]. rewrite !occurrences_app.
  destruct (One entry) as (-> & -> & ->). destruct IH as (-> & -> & ->).
  repeat split; lia.
Qed.

(** ** The pagination bar *)





